(** * audio/decode/ad_mpg123.c: the libmpg123 audio decoder wrapper

    A shallow embedding of the wrapper's packet loop ([decode_packet],
    [set_format], [mpg123_format_to_af]) and of its bitrate estimator
    ([update_info], [compute_bitrate]), with the properties the
    specification states about them.

    Conventions.  C integers are [Z] with the conversion to each C type
    written out (LP64: 32-bit [int], 16-bit [short], 64-bit [long] and
    [size_t]).  [float] and [double] are IEEE binary32 and binary64 values
    of the Standard Library's [SpecFloat], each operation rounded to nearest
    even in its own type.  Calls into libmpg123 and into the demuxer are
    inputs: one record holds what each call answers during one
    [decode_packet]. *)

From Stdlib Require Import ZArith List Bool Lia.
From Stdlib Require Import Floats.SpecFloat.
Import ListNotations.
Open Scope Z_scope.

(** ** C integer types *)

Module C.

Definition wrap_unsigned (w x : Z) : Z := x mod 2 ^ w.
Definition wrap_signed (w x : Z) : Z :=
  (x + 2 ^ (w - 1)) mod 2 ^ w - 2 ^ (w - 1).

Definition INT_MAX : Z := 2147483647.
Definition INT_MIN : Z := -2147483648.
(** [(unsigned int) -1] *)
Definition UINT_MAX : Z := 4294967295.

Definition to_int : Z -> Z := wrap_signed 32.
Definition to_uint : Z -> Z := wrap_unsigned 32.
Definition to_short : Z -> Z := wrap_signed 16.
Definition to_long : Z -> Z := wrap_signed 64.
Definition to_size_t : Z -> Z := wrap_unsigned 64.

Definition in_int (x : Z) : bool := (INT_MIN <=? x) && (x <=? INT_MAX).

End C.

(** ** IEEE arithmetic: [float] (binary32) and [double] (binary64) *)

Module F32.

Definition prec : Z := 24.
Definition emax : Z := 128.
Definition float : Type := spec_float.

Definition zero : float := S754_zero false.
(** Conversion of an integer value ([int] or [unsigned int]) to [float]. *)
Definition of_Z (z : Z) : float := binary_normalize prec emax z 0 false.
Definition add : float -> float -> float := SFadd prec emax.
Definition mul : float -> float -> float := SFmul prec emax.
Definition div : float -> float -> float := SFdiv prec emax.

End F32.

Module F64.

Definition prec : Z := 53.
Definition emax : Z := 1024.
Definition double : Type := spec_float.

(** Conversion of an integer value ([long]) to [double]. *)
Definition of_Z (z : Z) : double := binary_normalize prec emax z 0 false.
Definition add : double -> double -> double := SFadd prec emax.
(** The literal [0.5]. *)
Definition half : double := S754_finite false 4503599627370496 (-53).

(** Promotion of a [float] to [double]: the value is kept, the mantissa is
    brought to 53 bits. *)
Definition of_float (x : F32.float) : double :=
  match x with
  | S754_finite s m e => binary_normalize prec emax (cond_Zopp s (Zpos m)) e s
  | _ => x
  end.

(** The integer part of a finite value, rounded toward zero. *)
Definition trunc (x : double) : option Z :=
  match x with
  | S754_zero _ => Some 0
  | S754_finite s m e =>
      Some (cond_Zopp s
              (match e with
               | Zneg k => Z.shiftr (Zpos m) (Zpos k)
               | _ => Z.shiftl (Zpos m) e
               end))
  | _ => None
  end.

(** The cast [(int) x].  C leaves the result undefined when the integer part
    does not fit (or [x] is not finite); the x86-64 conversion instruction
    then gives [INT_MIN], which is what is modelled. *)
Definition to_int (x : double) : Z :=
  match trunc x with
  | Some t => if C.in_int t then t else C.INT_MIN
  | None => C.INT_MIN
  end.

End F64.

(** ** libmpg123 interface (mpg123.h) *)

(** Return codes of the library calls. *)
Definition MPG123_DONE : Z := -12.
Definition MPG123_NEW_FORMAT : Z := -11.
Definition MPG123_NEED_MORE : Z := -10.
Definition MPG123_ERR : Z := -1.
Definition MPG123_OK : Z := 0.

(** Output encodings. *)
Definition MPG123_ENC_SIGNED_16 : Z := 0xd0.
Definition MPG123_ENC_SIGNED_8 : Z := 0x82.
Definition MPG123_ENC_SIGNED_32 : Z := 0x1180.
Definition MPG123_ENC_FLOAT_32 : Z := 0x200.

(** [enum mpg123_vbr] *)
Definition MPG123_CBR : Z := 0.
Definition MPG123_VBR : Z := 1.
Definition MPG123_ABR : Z := 2.

(** [enum mpg123_version] *)
Definition MPG123_1_0 : Z := 0.
Definition MPG123_2_0 : Z := 1.
Definition MPG123_2_5 : Z := 2.

(** The fields of [struct mpg123_frameinfo] the wrapper reads. *)
Record mpg123_frameinfo : Type := {
  version : Z;     (* enum mpg123_version *)
  layer : Z;       (* int *)
  rate : Z;        (* long *)
  framesize : Z;   (* int *)
  bitrate : Z;     (* int, kilobits *)
  vbr : Z          (* enum mpg123_vbr *)
}.

(** ** compute_bitrate *)

Definition samples_per_frame : list (list Z) :=
  [ [-1; 384; 1152; 1152];   (* MPEG 1 *)
    [-1; 384; 1152;  576];   (* MPEG 2 *)
    [-1; 384; 1152;  576];   (* MPEG 2.5 *)
    [-1;  -1;   -1;   -1] ]. (* Unknown *)

(** [samples_per_frame[v][l]]; [None] outside the 4 x 4 table, where the C
    read is undefined. *)
Definition samples_per_frame_at (v l : Z) : option Z :=
  if (0 <=? v) && (0 <=? l)
  then match nth_error samples_per_frame (Z.to_nat v) with
       | Some row => nth_error row (Z.to_nat l)
       | None => None
       end
  else None.

(** The bitrate computed from the frame size.  [framesize + 4] and the product by 8
    are [int]; the product by [rate] and the division are [long], so the
    division is the integer one; [0.5] is then added in [double] and the sum
    cast to [int]. *)
Definition compute_bitrate (i : mpg123_frameinfo) : Z :=
  match samples_per_frame_at (version i) (layer i) with
  | Some spf =>
      let bits := C.to_int (C.to_int (framesize i + 4) * 8) in
      let q := C.to_long (Z.quot (C.to_long (bits * rate i)) spf) in
      F64.to_int (F64.add (F64.of_Z q) F64.half)
  | None => 0
  end.

(** ** Host interface (ad.h, audio.h, demux) *)

(** Modelled from the spec: the result codes of [decode_packet] are macros
    of the host's ad.h; section 6 names three distinct results, "produced
    output", "error" and "end of stream".  [AD_OK] is the literal [0] the
    code returns. *)
Inductive ad_status : Type := AD_OK | AD_ERR | AD_EOF.

(** Modelled from the spec: the host's sample formats the four encodings map
    to (audio/format.h); every [AF_FORMAT_*] is a non-zero code, so the [0]
    that [mpg123_format_to_af] returns for an unknown encoding is [None]. *)
Inductive af_format : Type :=
  AF_FORMAT_S8 | AF_FORMAT_S16 | AF_FORMAT_S32 | AF_FORMAT_FLOAT.

(** Modelled from the spec: [af_fmt2bps], the "bytes-per-sample-of-encoding"
    of section 4.1 step 6. *)
Definition af_fmt2bps (af : af_format) : Z :=
  match af with
  | AF_FORMAT_S8 => 1
  | AF_FORMAT_S16 => 2
  | AF_FORMAT_S32 => 4
  | AF_FORMAT_FLOAT => 4
  end.

(** The output descriptor [struct mp_audio]: format, channel count, sample
    rate ([arate] is its field [rate]), borrowed data pointer of the first
    plane ([0] is [NULL]) and sample count. *)
Record mp_audio : Type := {
  format : option af_format;
  nch : Z;
  arate : Z;
  planes0 : Z;
  samples : Z
}.

(** Modelled from the spec: [mp_audio_set_null_data] is the host helper that
    leaves the descriptor with no data attached, "zero samples produced". *)
Definition mp_audio_set_null_data (mpa : mp_audio) : mp_audio :=
  {| format := format mpa; nch := nch mpa; arate := arate mpa;
     planes0 := 0; samples := 0 |}.

(** Modelled from the spec: [mp_audio_set_num_channels] is a host helper
    (audio.h); it stores the channel count in the descriptor, the "channel
    count" of section 6. *)
Definition mp_audio_set_num_channels (mpa : mp_audio) (n : Z) : mp_audio :=
  {| format := format mpa; nch := n; arate := arate mpa;
     planes0 := planes0 mpa; samples := samples mpa |}.

(** Modelled from the spec: [mp_audio_set_format] is a host helper
    (audio.h); it stores the sample format in the descriptor, the
    "per-sample encoding" of section 6. *)
Definition mp_audio_set_format (mpa : mp_audio) (af : af_format) : mp_audio :=
  {| format := Some af; nch := nch mpa; arate := arate mpa;
     planes0 := planes0 mpa; samples := samples mpa |}.

(** The assignments [da->decoded.rate = rate] and
    [da->decoded.planes[0] = audio; da->decoded.samples = got_samples]. *)
Definition set_arate (mpa : mp_audio) (r : Z) : mp_audio :=
  {| format := format mpa; nch := nch mpa; arate := r;
     planes0 := planes0 mpa; samples := samples mpa |}.

Definition set_data (mpa : mp_audio) (p n : Z) : mp_audio :=
  {| format := format mpa; nch := nch mpa; arate := arate mpa;
     planes0 := p; samples := n |}.

(** A packet of the demuxer; [None] for the timestamp is [MP_NOPTS_VALUE].
    The payload goes to the library unread. *)
Record demux_packet : Type := {
  pkt_pts : option F64.double;
  pkt_len : Z
}.

(** ** Decoder context *)

Record ad_mpg123_context : Type := {
  sample_size : Z;           (* int *)
  (* Running mean for bit rate, stream length estimation. *)
  mean_rate : F32.float;
  mean_count : Z;            (* unsigned int *)
  (* Time delay for updates. *)
  delay : Z;                 (* short *)
  (* If the stream is actually VBR.  The field [vbr] of the source; the
     name is taken by the frame info's field. *)
  is_vbr : Z                 (* char *)
}.

(** [talloc_zero (NULL, struct ad_mpg123_context)] in [init]. *)
Definition zero_context : ad_mpg123_context :=
  {| sample_size := 0; mean_rate := F32.zero; mean_count := 0; delay := 0;
     is_vbr := 0 |}.

(** The fields of [struct dec_audio] the wrapper touches; [da_bitrate] is
    [da->bitrate]. *)
Record dec_audio : Type := {
  decoded : mp_audio;
  da_bitrate : Z;            (* int, bits per second *)
  pts : F64.double;
  pts_offset : Z;            (* int *)
  priv : ad_mpg123_context
}.

Definition set_decoded (da : dec_audio) (mpa : mp_audio) : dec_audio :=
  {| decoded := mpa; da_bitrate := da_bitrate da; pts := pts da;
     pts_offset := pts_offset da; priv := priv da |}.

Definition set_bitrate (da : dec_audio) (b : Z) : dec_audio :=
  {| decoded := decoded da; da_bitrate := b; pts := pts da;
     pts_offset := pts_offset da; priv := priv da |}.

Definition set_pts (da : dec_audio) (t : F64.double) (off : Z) : dec_audio :=
  {| decoded := decoded da; da_bitrate := da_bitrate da; pts := t;
     pts_offset := off; priv := priv da |}.

Definition set_priv (da : dec_audio) (con : ad_mpg123_context) : dec_audio :=
  {| decoded := decoded da; da_bitrate := da_bitrate da; pts := pts da;
     pts_offset := pts_offset da; priv := con |}.

Definition set_sample_size (con : ad_mpg123_context) (n : Z)
  : ad_mpg123_context :=
  {| sample_size := n; mean_rate := mean_rate con;
     mean_count := mean_count con; delay := delay con; is_vbr := is_vbr con |}.

Definition set_delay (con : ad_mpg123_context) (d : Z) : ad_mpg123_context :=
  {| sample_size := sample_size con; mean_rate := mean_rate con;
     mean_count := mean_count con; delay := d; is_vbr := is_vbr con |}.

Definition set_mean (con : ad_mpg123_context) (r : F32.float) (n : Z)
  : ad_mpg123_context :=
  {| sample_size := sample_size con; mean_rate := r; mean_count := n;
     delay := delay con; is_vbr := is_vbr con |}.

(** A session as [init] leaves it: the context zeroed, the host's fields as
    the host set them. *)
Definition fresh_session (da : dec_audio) : dec_audio := set_priv da zero_context.

(** What libmpg123 answers to the calls of one [decode_packet]. *)
Record mpg123_replies : Type := {
  feed_ret : Z;          (* mpg123_feed *)
  decode_ret : Z;        (* mpg123_decode_frame *)
  decode_audio : Z;      (* its buffer pointer *)
  decode_bytes : Z;      (* its byte count, size_t *)
  getformat_ret : Z;     (* mpg123_getformat *)
  fmt_rate : Z;          (* long *)
  fmt_channels : Z;      (* int *)
  fmt_encoding : Z;      (* int *)
  info_ret : Z;          (* mpg123_info *)
  info_frame : mpg123_frameinfo
}.

(** ** mpg123_format_to_af *)

Definition mpg123_format_to_af (mpg123_encoding : Z) : option af_format :=
  if mpg123_encoding =? MPG123_ENC_SIGNED_8 then Some AF_FORMAT_S8
  else if mpg123_encoding =? MPG123_ENC_SIGNED_16 then Some AF_FORMAT_S16
  else if mpg123_encoding =? MPG123_ENC_SIGNED_32 then Some AF_FORMAT_S32
  else if mpg123_encoding =? MPG123_ENC_FLOAT_32 then Some AF_FORMAT_FLOAT
  else None.

(** ** update_info *)

(** [--con->delay]: the decrement is made in [int] and stored back as a
    [short]. *)
Definition delay_decremented (con : ad_mpg123_context) : Z :=
  C.to_short (delay con - 1).

(** The test [--con->delay < 1] of the variable-bitrate branch. *)
Definition refresh_due (con : ad_mpg123_context) : bool :=
  delay_decremented con <? 1.

(** [if (++con->mean_count > ((unsigned int) -1) / 2)
        con->mean_count = ((unsigned int) -1) / 4;] *)
Definition next_count (n : Z) : Z :=
  let n1 := C.to_uint (n + 1) in
  if n1 >? C.UINT_MAX / 2 then C.UINT_MAX / 4 else n1.

(** [((con->mean_count - 1) * con->mean_rate + bitrate) / con->mean_count]
    with [count] the counter already stepped: the subtraction is unsigned,
    the three operations are [float] ones. *)
Definition next_mean (count : Z) (mean : F32.float) (bitrate : Z) : F32.float :=
  F32.div
    (F32.add (F32.mul (F32.of_Z (C.to_uint (count - 1))) mean)
             (F32.of_Z bitrate))
    (F32.of_Z count).

(** Update mean bitrate.  [ret] and [finfo] are what [mpg123_info] gives. *)
Definition update_info (da : dec_audio) (ret : Z) (finfo : mpg123_frameinfo)
  : dec_audio :=
  let con := priv da in
  if negb (ret =? MPG123_OK) then da
  else
    (* finfo.bitrate is expressed in kilobits *)
    let bitrate := C.to_int (bitrate finfo * 1000) in
    if negb (vbr finfo =? MPG123_CBR) then
      if refresh_due con then
        let count := next_count (mean_count con) in
        let mean := next_mean count (mean_rate con) bitrate in
        let shown := F64.to_int (F64.add (F64.of_float mean) F64.half) in
        set_priv (set_bitrate da shown) (set_delay (set_mean con mean count) 10)
      else
        set_priv da (set_delay con (delay_decremented con))
    else
      set_priv
        (set_bitrate da (if bitrate =? 0 then compute_bitrate finfo else bitrate))
        (set_mean (set_delay con 1) F32.zero 0).

(** ** set_format *)

(** libmpg123 has a new format ready; query and store, return return value
    of [mpg123_getformat]. *)
Definition set_format (da : dec_audio) (r : mpg123_replies) : Z * dec_audio :=
  let ret := getformat_ret r in
  if ret =? MPG123_OK then
    let da1 :=
      set_decoded da
        (set_arate (mp_audio_set_num_channels (decoded da) (fmt_channels r))
                   (C.to_int (fmt_rate r))) in
    match mpg123_format_to_af (fmt_encoding r) with
    | None => (MPG123_ERR, da1)
    | Some af =>
        let da2 := set_decoded da1 (mp_audio_set_format (decoded da1) af) in
        (ret,
         set_priv da2
           (set_sample_size (priv da2)
              (C.to_int (fmt_channels r * af_fmt2bps af))))
    end
  else (ret, da).

(** ** decode_packet *)

Definition decode_packet (da : dec_audio) (pkt : option demux_packet)
    (r : mpg123_replies) : ad_status * dec_audio :=
  let da := set_decoded da (mp_audio_set_null_data (decoded da)) in
  match pkt with
  | None => (AD_EOF, da)
  | Some pkt =>
      (* Next bytes from that presentation time. *)
      let da :=
        match pkt_pts pkt with
        | Some t => set_pts da t 0
        | None => da
        end in
      if negb (feed_ret r =? MPG123_OK) then (AD_ERR, da)
      else if decode_ret r =? MPG123_NEED_MORE then (AD_OK, da)
      else if negb (decode_ret r =? MPG123_OK)
              && negb (decode_ret r =? MPG123_DONE)
              && negb (decode_ret r =? MPG123_NEW_FORMAT) then (AD_ERR, da)
      else
        let (ret, da) := set_format da r in
        if negb (ret =? MPG123_OK) then (AD_ERR, da)
        else if sample_size (priv da) <? 1 then (AD_ERR, da)
        else
          let got_samples :=
            C.to_int (C.to_size_t (decode_bytes r)
                      / C.to_size_t (sample_size (priv da))) in
          let da := set_decoded da
                      (set_data (decoded da) (decode_audio r) got_samples) in
          let da := set_pts da (pts da) (C.to_int (pts_offset da + got_samples)) in
          (AD_OK, update_info da (info_ret r) (info_frame r))
  end.

(** ** Streams of frames *)

(** The estimator run over the frames of a stream, each with the answer of
    its [mpg123_info] call. *)
Fixpoint update_all (da : dec_audio) (frames : list (Z * mpg123_frameinfo))
  : dec_audio :=
  match frames with
  | [] => da
  | (ret, finfo) :: rest => update_all (update_info da ret finfo) rest
  end.

(** How many of the frames took the refresh branch. *)
Fixpoint refresh_count (da : dec_audio) (frames : list (Z * mpg123_frameinfo))
  : nat :=
  match frames with
  | [] => O
  | (ret, finfo) :: rest =>
      let hit := (ret =? MPG123_OK) && negb (vbr finfo =? MPG123_CBR)
                 && refresh_due (priv da) in
      Nat.add (if hit then 1%nat else 0%nat)
              (refresh_count (update_info da ret finfo) rest)
  end.

(** The bitrate-estimation state and the value shown to the host. *)
Definition estimator (da : dec_audio) : F32.float * Z * Z * Z :=
  (mean_rate (priv da), mean_count (priv da), delay (priv da), da_bitrate da).

(** A frame [mpg123_info] reports, and its classification. *)
Definition info_ok (f : Z * mpg123_frameinfo) : Prop := fst f = MPG123_OK.
Definition frame_cbr (f : Z * mpg123_frameinfo) : Prop :=
  info_ok f /\ vbr (snd f) = MPG123_CBR.
Definition frame_vbr (f : Z * mpg123_frameinfo) : Prop :=
  info_ok f /\ vbr (snd f) <> MPG123_CBR.

(** ** The specification's formulas *)

(** [round (n / d)] for [n >= 0] and [d > 0], halves upward. *)
Definition round_quotient (n d : Z) : Z := (2 * n + d) / (2 * d).

(** The analytic bitrate of section 4.2:
    [round ((frame_size_bytes + 4) * 8 * sample_rate / samples_per_frame)]. *)
Definition analytic_bitrate (frame_size sample_rate spf : Z) : Z :=
  round_quotient ((frame_size + 4) * 8 * sample_rate) spf.

(** The running mean of section 4.2 as the specification writes it,
    [((count - 1) * old_mean + new_bitrate) / count], in [float]
    arithmetic. *)
Definition running_mean_formula (count : Z) (old_mean : F32.float)
    (new_bitrate : Z) : F32.float :=
  F32.div
    (F32.add (F32.mul (F32.of_Z (count - 1)) old_mean) (F32.of_Z new_bitrate))
    (F32.of_Z count).

(** A context in the middle of a variable-bitrate stream. *)
Definition context_at (count d : Z) (mean : F32.float) : ad_mpg123_context :=
  {| sample_size := 4; mean_rate := mean; mean_count := count; delay := d;
     is_vbr := 0 |}.

(** Some sample inputs. *)
Definition host0 : dec_audio :=
  {| decoded := {| format := None; nch := 0; arate := 0; planes0 := 0;
                   samples := 0 |};
     da_bitrate := 0; pts := S754_zero false; pts_offset := 0;
     priv := zero_context |}.

Definition frame (kbps cls : Z) : mpg123_frameinfo :=
  {| version := MPG123_1_0; layer := 3; rate := 44100; framesize := 417;
     bitrate := kbps; vbr := cls |}.

Definition replies (feed dec getfmt bytes : Z) (f : mpg123_frameinfo)
  : mpg123_replies :=
  {| feed_ret := feed; decode_ret := dec; decode_audio := 4096;
     decode_bytes := bytes; getformat_ret := getfmt; fmt_rate := 44100;
     fmt_channels := 2; fmt_encoding := MPG123_ENC_SIGNED_16;
     info_ret := MPG123_OK; info_frame := f |}.

(** A constant-bitrate MPEG-1 layer III frame at 44100 Hz that reports no
    bitrate (free format). *)
Definition free_format_frame (size : Z) : mpg123_frameinfo :=
  {| version := MPG123_1_0; layer := 3; rate := 44100; framesize := size;
     bitrate := 0; vbr := MPG123_CBR |}.

Definition packet0 : demux_packet := {| pkt_pts := None; pkt_len := 418 |}.

(** The state of [decode_packet] when it calls the library: data cleared,
    timestamp of the packet adopted. *)
Definition entered (da : dec_audio) (p : demux_packet) : dec_audio :=
  let da := set_decoded da (mp_audio_set_null_data (decoded da)) in
  match pkt_pts p with
  | Some t => set_pts da t 0
  | None => da
  end.

(** The paths through [decode_packet] once a packet is there. *)
Inductive path (da : dec_audio) (r : mpg123_replies)
  : ad_status -> dec_audio -> Prop :=
| path_feed_failed :
    feed_ret r <> MPG123_OK -> path da r AD_ERR da
| path_need_more :
    feed_ret r = MPG123_OK -> decode_ret r = MPG123_NEED_MORE ->
    path da r AD_OK da
| path_decode_failed :
    feed_ret r = MPG123_OK -> decode_ret r <> MPG123_NEED_MORE ->
    decode_ret r <> MPG123_OK -> decode_ret r <> MPG123_DONE ->
    decode_ret r <> MPG123_NEW_FORMAT ->
    path da r AD_ERR da
| path_format_failed da1 :
    feed_ret r = MPG123_OK -> decode_ret r <> MPG123_NEED_MORE ->
    (decode_ret r = MPG123_OK \/ decode_ret r = MPG123_DONE \/
     decode_ret r = MPG123_NEW_FORMAT) ->
    (getformat_ret r <> MPG123_OK \/
     mpg123_format_to_af (fmt_encoding r) = None) ->
    estimator da1 = estimator da ->
    path da r AD_ERR da1
| path_no_sample_size af da1 :
    feed_ret r = MPG123_OK -> decode_ret r <> MPG123_NEED_MORE ->
    (decode_ret r = MPG123_OK \/ decode_ret r = MPG123_DONE \/
     decode_ret r = MPG123_NEW_FORMAT) ->
    getformat_ret r = MPG123_OK ->
    mpg123_format_to_af (fmt_encoding r) = Some af ->
    C.to_int (fmt_channels r * af_fmt2bps af) < 1 ->
    estimator da1 = estimator da ->
    path da r AD_ERR da1
| path_decoded af da1 :
    feed_ret r = MPG123_OK -> decode_ret r <> MPG123_NEED_MORE ->
    (decode_ret r = MPG123_OK \/ decode_ret r = MPG123_DONE \/
     decode_ret r = MPG123_NEW_FORMAT) ->
    getformat_ret r = MPG123_OK ->
    mpg123_format_to_af (fmt_encoding r) = Some af ->
    sample_size (priv da1) = C.to_int (fmt_channels r * af_fmt2bps af) ->
    1 <= sample_size (priv da1) ->
    estimator da1 = estimator da ->
    samples (decoded da1) =
      C.to_int (C.to_size_t (decode_bytes r)
                / C.to_size_t (sample_size (priv da1))) ->
    pts_offset da1 = C.to_int (pts_offset da + samples (decoded da1)) ->
    path da r AD_OK (update_info da1 (info_ret r) (info_frame r)).

(** ** Session life cycle: [init], [uninit], [control] *)

(** The settings [init] gives to [mpg123_param]. *)
Inductive mpg123_setting : Type :=
| Add_flags_quiet               (* MPG123_ADD_FLAGS, MPG123_QUIET *)
| Resync_limit_off              (* MPG123_RESYNC_LIMIT, -1 *)
| Remove_flags_auto_resample.   (* MPG123_REMOVE_FLAGS, MPG123_AUTO_RESAMPLE *)

(** The error messages of the wrapper. *)
Inductive message : Type :=
| Msg_preinit_plain    (* "mpg123 preinit error", mpg123_plain_strerror *)
| Msg_preinit          (* "mpg123 preinit error", mpg123_strerror *)
| Msg_bad_encoding     (* "Bad encoding from mpg123" *)
| Msg_no_sample_size   (* "no sample size" *)
| Msg_decoding_error   (* "mpg123 decoding error" *)
| Msg_reopen.          (* "mpg123 failed to reopen stream" *)

(** What the wrapper does to the outside, in order: calls into libmpg123
    (with the handle they are given, [0] for [NULL]), into the demuxer and
    the allocator, and messages logged with [MP_ERR]. *)
Inductive event : Type :=
| Ev_mpg123_init
| Ev_talloc_zero
| Ev_mpg123_new
| Ev_mpg123_param (h : Z) (s : mpg123_setting)
| Ev_mpg123_open_feed (h : Z)
| Ev_mpg123_close (h : Z)
| Ev_mpg123_delete (h : Z)
| Ev_mpg123_exit
| Ev_demux_read_packet
| Ev_mpg123_feed (h : Z)
| Ev_talloc_free
| Ev_mpg123_decode_frame (h : Z)
| Ev_mpg123_getformat (h : Z)
| Ev_mpg123_info (h : Z)
| Ev_MP_ERR (m : message).

Definition is_exit (e : event) : bool :=
  match e with Ev_mpg123_exit => true | _ => false end.
Definition is_init (e : event) : bool :=
  match e with Ev_mpg123_init => true | _ => false end.
Definition is_new (e : event) : bool :=
  match e with Ev_mpg123_new => true | _ => false end.
Definition is_delete (e : event) : bool :=
  match e with Ev_mpg123_delete _ => true | _ => false end.
Definition is_free (e : event) : bool :=
  match e with Ev_talloc_free => true | _ => false end.
Definition is_read (e : event) : bool :=
  match e with Ev_demux_read_packet => true | _ => false end.
Definition is_error_message (e : event) : bool :=
  match e with Ev_MP_ERR _ => true | _ => false end.
Definition is_info (e : event) : bool :=
  match e with Ev_mpg123_info _ => true | _ => false end.

(** The handle an event hands to the library, if it hands one. *)
Definition handle_of (e : event) : option Z :=
  match e with
  | Ev_mpg123_param h _ | Ev_mpg123_open_feed h | Ev_mpg123_close h
  | Ev_mpg123_delete h | Ev_mpg123_feed h | Ev_mpg123_decode_frame h
  | Ev_mpg123_getformat h | Ev_mpg123_info h => Some h
  | _ => None
  end.

Definition count (f : event -> bool) (l : list event) : nat :=
  length (filter f l).

(** [uninit], on the handle of the context. *)
Definition uninit (h : Z) : list event :=
  [Ev_mpg123_close h; Ev_mpg123_delete h; Ev_mpg123_exit].

(** What the library answers during [init]: [mpg123_init], the handle of
    [mpg123_new] ([0] for [NULL]) and [mpg123_open_feed]. *)
Record init_replies : Type := {
  init_ret : Z;
  new_handle : Z;
  open_feed_ret : Z
}.

(** The result of [init]: the value returned, the session with its new
    context, the handle stored in the context, and what was done. *)
Record init_result : Type := {
  i_ret : Z;
  i_da : dec_audio;
  i_handle : Z;
  i_events : list event
}.

(** This initializes libmpg123 and prepares the handle.  The handle is the
    field [handle] of the context; it is kept beside the record. *)
Definition init (da : dec_audio) (r : init_replies) : init_result :=
  if negb (init_ret r =? MPG123_OK) then
    {| i_ret := 0; i_da := da; i_handle := 0; i_events := [Ev_mpg123_init] |}
  else
    let da := set_priv da zero_context in
    let h := new_handle r in
    let allocated := [Ev_mpg123_init; Ev_talloc_zero; Ev_mpg123_new] in
    if h =? 0 then
      {| i_ret := 0; i_da := da; i_handle := h;
         i_events := allocated ++ [Ev_MP_ERR Msg_preinit_plain] ++ uninit h |}
    else
      let opened :=
        allocated ++
        [Ev_mpg123_param h Add_flags_quiet;
         Ev_mpg123_param h Resync_limit_off;
         Ev_mpg123_param h Remove_flags_auto_resample;
         Ev_mpg123_open_feed h] in
      if negb (open_feed_ret r =? MPG123_OK) then
        {| i_ret := 0; i_da := da; i_handle := h;
           i_events := opened ++ [Ev_MP_ERR Msg_preinit] ++ uninit h |}
      else
        {| i_ret := 1; i_da := da; i_handle := h; i_events := opened |}.

(** Modelled from the spec: the commands of the host's control channel
    (ad.h); section 6 has "at minimum a reset/seek command". *)
Inductive ad_command : Type := ADCTRL_RESET | ADCTRL_OTHER (n : Z).

(** Modelled from the spec: the results of a control command, "success,
    failure, unknown command" (macros of the host). *)
Inductive control_status : Type :=
  CONTROL_TRUE | CONTROL_FALSE | CONTROL_UNKNOWN.

(** [control]; [reopen] is what [mpg123_open_feed] answers. *)
Definition control (da : dec_audio) (h : Z) (cmd : ad_command) (reopen : Z)
  : control_status * dec_audio * list event :=
  match cmd with
  | ADCTRL_RESET =>
      let da := set_decoded da (mp_audio_set_null_data (decoded da)) in
      let calls := [Ev_mpg123_close h; Ev_mpg123_open_feed h] in
      if negb (reopen =? MPG123_OK)
      then (CONTROL_FALSE, da, calls ++ [Ev_MP_ERR Msg_reopen])
      else (CONTROL_TRUE, da, calls)
  | ADCTRL_OTHER _ => (CONTROL_UNKNOWN, da, [])
  end.

(** What [decode_packet] does to the outside, with [h] the handle of the
    context: the calls in the order of the source, the packet freed right
    after the feed, the messages of [set_format] and of the two error
    exits. *)
Definition decode_packet_events (da : dec_audio) (h : Z)
    (pkt : option demux_packet) (r : mpg123_replies) : list event :=
  Ev_demux_read_packet ::
  match pkt with
  | None => []
  | Some p =>
      Ev_mpg123_feed h :: Ev_talloc_free ::
      if negb (feed_ret r =? MPG123_OK) then [Ev_MP_ERR Msg_decoding_error]
      else
        Ev_mpg123_decode_frame h ::
        if decode_ret r =? MPG123_NEED_MORE then []
        else if negb (decode_ret r =? MPG123_OK)
                && negb (decode_ret r =? MPG123_DONE)
                && negb (decode_ret r =? MPG123_NEW_FORMAT)
        then [Ev_MP_ERR Msg_decoding_error]
        else
          Ev_mpg123_getformat h ::
          (if (getformat_ret r =? MPG123_OK)
              && match mpg123_format_to_af (fmt_encoding r) with
                 | None => true
                 | Some _ => false
                 end
           then [Ev_MP_ERR Msg_bad_encoding] else []) ++
          let (ret, da1) := set_format (entered da p) r in
          if negb (ret =? MPG123_OK) then [Ev_MP_ERR Msg_decoding_error]
          else if sample_size (priv da1) <? 1 then [Ev_MP_ERR Msg_no_sample_size]
          else [Ev_mpg123_info h]
  end.

(** One call of the host into an open session. *)
Inductive operation : Type :=
| Op_decode (pkt : option demux_packet) (r : mpg123_replies)
| Op_control (cmd : ad_command) (reopen : Z).

Definition apply_operation (da : dec_audio) (h : Z) (o : operation)
  : dec_audio * list event :=
  match o with
  | Op_decode pkt r =>
      (snd (decode_packet da pkt r), decode_packet_events da h pkt r)
  | Op_control cmd reopen =>
      (snd (fst (control da h cmd reopen)), snd (control da h cmd reopen))
  end.

(** A sequence of calls: the state it ends in and all it did. *)
Fixpoint run (da : dec_audio) (h : Z) (ops : list operation)
  : dec_audio * list event :=
  match ops with
  | [] => (da, [])
  | o :: rest =>
      let (da1, ev1) := apply_operation da h o in
      let (da2, ev2) := run da1 h rest in
      (da2, ev1 ++ ev2)
  end.

(** A whole session: [init], and when it succeeds the calls of the host and
    [uninit]. *)
Definition session (da : dec_audio) (r : init_replies) (ops : list operation)
  : list event :=
  let i := init da r in
  if i_ret i =? 1
  then i_events i ++ snd (run (i_da i) (i_handle i) ops) ++ uninit (i_handle i)
  else i_events i.

(** The samples the calls of a sequence attach, one count per call. *)
Fixpoint samples_of (da : dec_audio) (h : Z) (ops : list operation) : list Z :=
  match ops with
  | [] => []
  | o :: rest =>
      let da1 := fst (apply_operation da h o) in
      samples (decoded da1) :: samples_of da1 h rest
  end.

(** The frames of a sequence that reach [update_info]. *)
Definition op_decodes_ok (o : operation) : Prop :=
  match o with
  | Op_decode (Some p) r =>
      feed_ret r = MPG123_OK /\
      (decode_ret r = MPG123_OK \/ decode_ret r = MPG123_DONE \/
       decode_ret r = MPG123_NEW_FORMAT) /\
      getformat_ret r = MPG123_OK /\
      (exists af, mpg123_format_to_af (fmt_encoding r) = Some af /\
                  1 <= C.to_int (fmt_channels r * af_fmt2bps af))
  | _ => False
  end.

Definition op_untimed (o : operation) : Prop :=
  match o with
  | Op_decode (Some p) _ => pkt_pts p = None
  | _ => False
  end.

(** The same answers with another outcome of [mpg123_decode_frame], or of
    [mpg123_info]. *)
Definition with_decode_ret (r : mpg123_replies) (ret : Z) : mpg123_replies :=
  {| feed_ret := feed_ret r; decode_ret := ret;
     decode_audio := decode_audio r; decode_bytes := decode_bytes r;
     getformat_ret := getformat_ret r; fmt_rate := fmt_rate r;
     fmt_channels := fmt_channels r; fmt_encoding := fmt_encoding r;
     info_ret := info_ret r; info_frame := info_frame r |}.

Definition with_info (r : mpg123_replies) (ret : Z) (fi : mpg123_frameinfo)
  : mpg123_replies :=
  {| feed_ret := feed_ret r; decode_ret := decode_ret r;
     decode_audio := decode_audio r; decode_bytes := decode_bytes r;
     getformat_ret := getformat_ret r; fmt_rate := fmt_rate r;
     fmt_channels := fmt_channels r; fmt_encoding := fmt_encoding r;
     info_ret := ret; info_frame := fi |}.

(** The timestamp and the sample offset a call starts from. *)
Definition pts_base (da : dec_audio) (pkt : option demux_packet)
  : F64.double * Z :=
  match pkt with
  | Some p =>
      match pkt_pts p with
      | Some t => (t, 0)
      | None => (pts da, pts_offset da)
      end
  | None => (pts da, pts_offset da)
  end.

(** The end of [decode_packet]: the decoded bytes attached to the output
    and the sample offset advanced. *)
Definition deliver (da : dec_audio) (r : mpg123_replies) : dec_audio :=
  let got_samples :=
    C.to_int (C.to_size_t (decode_bytes r)
              / C.to_size_t (sample_size (priv da))) in
  let da := set_decoded da
              (set_data (decoded da) (decode_audio r) got_samples) in
  set_pts da (pts da) (C.to_int (pts_offset da + got_samples)).

Definition decode_good (r : mpg123_replies) : Prop :=
  decode_ret r = MPG123_OK \/ decode_ret r = MPG123_DONE \/
  decode_ret r = MPG123_NEW_FORMAT.

(** The calls of an open session stay within it: they neither bring the
    library up or down nor make or delete a handle, and they use the handle
    of the session. *)
Definition within_session (h : Z) (e : event) : Prop :=
  is_init e = false /\ is_exit e = false /\ is_new e = false /\
  is_delete e = false /\
  (forall h', handle_of e = Some h' -> h' = h).

(** ** Refresh windows *)

(** The number of 10-frame windows an [n]-frame run starts:
    [ceil (n / 10)]. *)
Definition windows (n : nat) : nat := Nat.div (n + 9) 10.

(** * Properties *)

(** ** Conversions that change nothing *)

Lemma to_int_id (x : Z) : C.INT_MIN <= x <= C.INT_MAX -> C.to_int x = x.
Proof.
  unfold C.to_int, C.wrap_signed, C.INT_MIN, C.INT_MAX. intros H.
  rewrite Z.mod_small; lia.
Qed.

Lemma to_uint_id (x : Z) : 0 <= x <= C.UINT_MAX -> C.to_uint x = x.
Proof.
  unfold C.to_uint, C.wrap_unsigned, C.UINT_MAX. intros H.
  apply Z.mod_small. lia.
Qed.

Lemma to_short_id (x : Z) : -32768 <= x <= 32767 -> C.to_short x = x.
Proof.
  unfold C.to_short, C.wrap_signed. intros H. rewrite Z.mod_small; lia.
Qed.

Lemma to_long_id (x : Z) : - 2 ^ 63 <= x < 2 ^ 63 -> C.to_long x = x.
Proof.
  unfold C.to_long, C.wrap_signed. intros H.
  change (2 ^ (64 - 1)) with (2 ^ 63). change (2 ^ 64) with (2 * 2 ^ 63).
  rewrite Z.mod_small; lia.
Qed.

Lemma to_size_t_id (x : Z) : 0 <= x < 2 ^ 64 -> C.to_size_t x = x.
Proof. unfold C.to_size_t, C.wrap_unsigned. apply Z.mod_small. Qed.

Lemma to_uint_range (x : Z) : 0 <= C.to_uint x <= C.UINT_MAX.
Proof.
  unfold C.to_uint, C.wrap_unsigned, C.UINT_MAX.
  pose proof (Z.mod_pos_bound x (2 ^ 32) eq_refl). lia.
Qed.

(** ** What [update_info] leaves alone *)

Lemma update_info_decoded da ret fi :
  decoded (update_info da ret fi) = decoded da.
Proof.
  unfold update_info.
  destruct (ret =? MPG123_OK), (vbr fi =? MPG123_CBR),
    (refresh_due (priv da)); reflexivity.
Qed.

Lemma update_info_pts_offset da ret fi :
  pts_offset (update_info da ret fi) = pts_offset da.
Proof.
  unfold update_info.
  destruct (ret =? MPG123_OK), (vbr fi =? MPG123_CBR),
    (refresh_due (priv da)); reflexivity.
Qed.

Lemma update_info_sample_size da ret fi :
  sample_size (priv (update_info da ret fi)) = sample_size (priv da).
Proof.
  unfold update_info.
  destruct (ret =? MPG123_OK), (vbr fi =? MPG123_CBR),
    (refresh_due (priv da)); reflexivity.
Qed.

Lemma update_info_failed da ret fi :
  ret <> MPG123_OK -> update_info da ret fi = da.
Proof.
  intros H. unfold update_info.
  destruct (Z.eqb_spec ret MPG123_OK); [contradiction | reflexivity].
Qed.

(** [update_info] on a frame classified constant-bitrate. *)
Lemma update_info_cbr da fi :
  vbr fi = MPG123_CBR ->
  update_info da MPG123_OK fi =
  set_priv
    (set_bitrate da
       (if C.to_int (bitrate fi * 1000) =? 0 then compute_bitrate fi
        else C.to_int (bitrate fi * 1000)))
    (set_mean (set_delay (priv da) 1) F32.zero 0).
Proof.
  intros H. unfold update_info. rewrite H. reflexivity.
Qed.

(** [update_info] on a frame classified variable-bitrate. *)
Lemma update_info_vbr da fi :
  vbr fi <> MPG123_CBR ->
  update_info da MPG123_OK fi =
  if refresh_due (priv da) then
    let count := next_count (mean_count (priv da)) in
    let mean := next_mean count (mean_rate (priv da))
                  (C.to_int (bitrate fi * 1000)) in
    set_priv
      (set_bitrate da (F64.to_int (F64.add (F64.of_float mean) F64.half)))
      (set_delay (set_mean (priv da) mean count) 10)
  else set_priv da (set_delay (priv da) (delay_decremented (priv da))).
Proof.
  intros H. unfold update_info.
  destruct (Z.eqb_spec (vbr fi) MPG123_CBR); [contradiction | reflexivity].
Qed.

(** ** Constant-bitrate frames *)

(** C1, as stated, fails: a constant-bitrate frame that reports bitrate 0
    (a free-format stream) shows the bitrate computed from the frame size,
    not 0 * 1000. *)
Lemma cbr_zero_bitrate_shows_computed :
  let f := frame 0 MPG123_CBR in
  frame_cbr (MPG123_OK, f) /\
  bitrate f * 1000 = 0 /\
  da_bitrate (update_all host0 [(MPG123_OK, f)]) = 128931.
Proof. repeat split. Qed.

(** C1, amended: in a stream whose frames are all constant-bitrate with the
    same reported bitrate B, B not zero (and B * 1000 an [int]), the shown
    bitrate is B * 1000 right after the first frame, and still after the
    whole stream. *)
Theorem cbr_estimate_immediate :
  forall (da : dec_audio) (B : Z) (first : Z * mpg123_frameinfo)
         (rest : list (Z * mpg123_frameinfo)),
    B <> 0 ->
    C.INT_MIN <= B * 1000 <= C.INT_MAX ->
    Forall (fun f => frame_cbr f /\ bitrate (snd f) = B) (first :: rest) ->
    da_bitrate (update_info da (fst first) (snd first)) = B * 1000 /\
    da_bitrate (update_all da (first :: rest)) = B * 1000.
Proof.
  intros da B first rest HB Hr Hall.
  assert (step : forall d f, frame_cbr f /\ bitrate (snd f) = B ->
             da_bitrate (update_info d (fst f) (snd f)) = B * 1000).
  { intros d [ret fi] [[Hok Hc] Hb]. simpl in *. unfold info_ok in Hok.
    simpl in Hok. subst ret. rewrite (update_info_cbr _ _ Hc), Hb.
    rewrite (to_int_id _ Hr). simpl.
    destruct (Z.eqb_spec (B * 1000) 0); [lia | reflexivity]. }
  split.
  - apply step. now inversion Hall.
  - revert da. induction rest as [|g rest IH] using rev_ind; intros da.
    + destruct first as [ret fi]. simpl. apply (step da (ret, fi)).
      now inversion Hall.
    + assert (E : forall l d, update_all d (l ++ [g]) =
                    update_info (update_all d l) (fst g) (snd g)).
      { induction l as [|[r0 f0] l IHl]; intros d; simpl.
        - destruct g; reflexivity.
        - apply IHl. }
      change (first :: rest ++ [g]) with ((first :: rest) ++ [g]).
      rewrite E. apply step.
      rewrite app_comm_cons in Hall. apply Forall_app in Hall.
      destruct Hall as [_ Hg]. now inversion Hg.
Qed.

Lemma cbr_estimate_immediate_witness :
  da_bitrate (update_info host0 MPG123_OK (frame 128 MPG123_CBR)) = 128000 /\
  da_bitrate
    (update_all host0
       [(MPG123_OK, frame 128 MPG123_CBR); (MPG123_OK, frame 128 MPG123_CBR)])
  = 128000.
Proof.
  apply (cbr_estimate_immediate host0 128
           (MPG123_OK, frame 128 MPG123_CBR)
           [(MPG123_OK, frame 128 MPG123_CBR)]).
  - discriminate.
  - unfold C.INT_MIN, C.INT_MAX. lia.
  - repeat constructor.
Defined.

(** C9, as stated, fails: a constant-bitrate frame leaves the delay counter
    at 1, not at 0. *)
Lemma cbr_delay_is_one :
  let da := update_info host0 MPG123_OK (frame 128 MPG123_CBR) in
  delay (priv da) = 1 /\ delay (priv da) <> 0.
Proof. split; [reflexivity | discriminate]. Qed.

(** C9, amended: whenever a constant-bitrate frame is observed, whatever the
    state before, [mean_rate] and [mean_count] are reset to zero and the
    delay counter to 1. *)
Theorem cbr_resets_estimator :
  forall (da : dec_audio) (fi : mpg123_frameinfo),
    vbr fi = MPG123_CBR ->
    let da' := update_info da MPG123_OK fi in
    mean_rate (priv da') = F32.zero /\
    mean_count (priv da') = 0 /\
    delay (priv da') = 1.
Proof.
  intros da fi H. cbv zeta. rewrite (update_info_cbr _ _ H).
  repeat split.
Qed.

Lemma cbr_resets_estimator_witness :
  let da' :=
    update_info
      (update_all host0 [(MPG123_OK, frame 128 MPG123_VBR);
                         (MPG123_OK, frame 192 MPG123_VBR)])
      MPG123_OK (frame 128 MPG123_CBR) in
  mean_rate (priv da') = F32.zero /\
  mean_count (priv da') = 0 /\
  delay (priv da') = 1.
Proof.
  apply (cbr_resets_estimator
           (update_all host0 [(MPG123_OK, frame 128 MPG123_VBR);
                              (MPG123_OK, frame 192 MPG123_VBR)])
           (frame 128 MPG123_CBR)).
  reflexivity.
Defined.

(** ** One call of [decode_packet] *)

Lemma mpg123_format_to_af_none (enc : Z) :
  mpg123_format_to_af enc = None <->
  enc <> MPG123_ENC_SIGNED_8 /\ enc <> MPG123_ENC_SIGNED_16 /\
  enc <> MPG123_ENC_SIGNED_32 /\ enc <> MPG123_ENC_FLOAT_32.
Proof.
  unfold mpg123_format_to_af.
  destruct (Z.eqb_spec enc MPG123_ENC_SIGNED_8);
    [split; [discriminate | tauto]|].
  destruct (Z.eqb_spec enc MPG123_ENC_SIGNED_16);
    [split; [discriminate | tauto]|].
  destruct (Z.eqb_spec enc MPG123_ENC_SIGNED_32);
    [split; [discriminate | tauto]|].
  destruct (Z.eqb_spec enc MPG123_ENC_FLOAT_32);
    [split; [discriminate | tauto]|].
  tauto.
Qed.

Lemma entered_estimator da p : estimator (entered da p) = estimator da.
Proof. unfold entered. destruct (pkt_pts p); reflexivity. Qed.

Lemma entered_samples da p : samples (decoded (entered da p)) = 0.
Proof. unfold entered. destruct (pkt_pts p); reflexivity. Qed.

Lemma entered_pts_offset da p :
  pts_offset (entered da p) =
  match pkt_pts p with Some _ => 0 | None => pts_offset da end.
Proof. unfold entered. destruct (pkt_pts p); reflexivity. Qed.

Lemma decode_packet_path da p r :
  path (entered da p) r (fst (decode_packet da (Some p) r))
       (snd (decode_packet da (Some p) r)).
Proof.
  unfold decode_packet. fold (entered da p). generalize (entered da p).
  intros d.
  destruct (Z.eqb_spec (feed_ret r) MPG123_OK) as [Hf|Hf]; simpl;
    [|now apply path_feed_failed].
  destruct (Z.eqb_spec (decode_ret r) MPG123_NEED_MORE) as [Hn|Hn];
    [now apply path_need_more|].
  destruct (Z.eqb_spec (decode_ret r) MPG123_OK) as [H1|H1];
  destruct (Z.eqb_spec (decode_ret r) MPG123_DONE) as [H2|H2];
  destruct (Z.eqb_spec (decode_ret r) MPG123_NEW_FORMAT) as [H3|H3]; simpl;
    try (now apply path_decode_failed).
  all: assert (Hd : decode_ret r = MPG123_OK \/ decode_ret r = MPG123_DONE \/
                    decode_ret r = MPG123_NEW_FORMAT) by tauto.
  all: unfold set_format.
  all: destruct (Z.eqb_spec (getformat_ret r) MPG123_OK) as [Hg|Hg];
    [| destruct (Z.eqb_spec (getformat_ret r) MPG123_OK); [contradiction|];
       simpl; apply path_format_failed; auto ].
  all: destruct (mpg123_format_to_af (fmt_encoding r)) as [af|] eqn:Haf;
    [| simpl; apply path_format_failed; auto ].
  all: rewrite Hg; cbn [negb Z.eqb MPG123_OK fst snd];
    change (sample_size (priv (set_priv ?x (set_sample_size ?c ?n)))) with n.
  all: cbn [priv set_priv sample_size set_sample_size].
  all: destruct (Z.ltb_spec (C.to_int (fmt_channels r * af_fmt2bps af)) 1)
         as [Hs|Hs];
    [ now apply (path_no_sample_size _ _ af)
    | now apply (path_decoded _ _ af) ].
Qed.

Lemma decode_packet_eof da r :
  decode_packet da None r
  = (AD_EOF, set_decoded da (mp_audio_set_null_data (decoded da))).
Proof. reflexivity. Qed.

(** C7: when the decode step reports "need more input", [decode_packet]
    returns the ok result (neither the error nor the end-of-stream one) and
    the output descriptor carries no data and zero samples. *)
Theorem need_more_gives_no_samples :
  forall (da : dec_audio) (p : demux_packet) (r : mpg123_replies),
    feed_ret r = MPG123_OK ->
    decode_ret r = MPG123_NEED_MORE ->
    let res := decode_packet da (Some p) r in
    fst res = AD_OK /\ fst res <> AD_ERR /\ fst res <> AD_EOF /\
    samples (decoded (snd res)) = 0 /\ planes0 (decoded (snd res)) = 0.
Proof.
  intros da p r Hf Hn. cbv zeta. unfold decode_packet.
  rewrite Hf, Hn. simpl.
  destruct (pkt_pts p); simpl; repeat split; discriminate.
Qed.

Lemma need_more_gives_no_samples_witness :
  let res :=
    decode_packet (update_all host0 [(MPG123_OK, frame 128 MPG123_VBR)])
      (Some packet0)
      (replies MPG123_OK MPG123_NEED_MORE MPG123_OK 0 (frame 128 MPG123_VBR)) in
  fst res = AD_OK /\ fst res <> AD_ERR /\ fst res <> AD_EOF /\
  samples (decoded (snd res)) = 0 /\ planes0 (decoded (snd res)) = 0.
Proof.
  apply (need_more_gives_no_samples
           (update_all host0 [(MPG123_OK, frame 128 MPG123_VBR)]) packet0
           (replies MPG123_OK MPG123_NEED_MORE MPG123_OK 0
              (frame 128 MPG123_VBR)));
    reflexivity.
Defined.

(** C6: on every successful decode the sample count attached to the output
    is the floor of the decoded byte length divided by the per-sample-frame
    byte size (so a remainder of bytes gives no partial sample), and the
    sample offset, counted from 0 when the packet brought a timestamp and
    from its old value otherwise, advances by exactly that count.  The
    per-sample-frame byte size is the channel count the library reports
    times the bytes per sample of the encoding it reports. *)
Theorem decoded_samples_floor :
  forall (da da' : dec_audio) (p : demux_packet) (r : mpg123_replies),
    decode_packet da (Some p) r = (AD_OK, da') ->
    decode_ret r <> MPG123_NEED_MORE ->
    let size := sample_size (priv da') in
    let n := decode_bytes r / size in
    let base := match pkt_pts p with Some _ => 0 | None => pts_offset da end in
    0 <= decode_bytes r < 2 ^ 64 ->
    n <= C.INT_MAX ->
    C.INT_MIN <= base + n <= C.INT_MAX ->
    1 <= size /\
    samples (decoded da') = n /\
    n * size <= decode_bytes r < (n + 1) * size /\
    (decode_bytes r mod size <> 0 -> n * size < decode_bytes r) /\
    pts_offset da' = base + n /\
    exists af : af_format,
      mpg123_format_to_af (fmt_encoding r) = Some af /\
      size = C.to_int (fmt_channels r * af_fmt2bps af) /\
      (C.INT_MIN <= fmt_channels r * af_fmt2bps af <= C.INT_MAX ->
       size = fmt_channels r * af_fmt2bps af /\
       samples (decoded da')
       = decode_bytes r / (fmt_channels r * af_fmt2bps af)).
Proof.
  intros da da' p r E Hn size n base Hb Hmax Hoff.
  pose proof (decode_packet_path da p r) as P. rewrite E in P. simpl in P.
  inversion P as [ | | | | | af da1 Hf Hn' Hd Hg Haf Hss Hpos Hest Hsam Hpts Hst Hda];
    try contradiction.
  assert (Hsize : size = sample_size (priv da1)).
  { unfold size. rewrite <- Hda. apply update_info_sample_size. }
  assert (Hint : sample_size (priv da1) <= C.INT_MAX).
  { rewrite Hss. unfold C.to_int, C.wrap_signed, C.INT_MAX.
    pose proof (Z.mod_pos_bound (fmt_channels r * af_fmt2bps af + 2 ^ (32 - 1))
                  (2 ^ 32) eq_refl). lia. }
  assert (Hn0 : 0 <= n).
  { unfold n. apply Z.div_pos; lia. }
  assert (Hsam' : samples (decoded da1) = n).
  { rewrite Hsam, (to_size_t_id _ Hb), to_size_t_id.
    - rewrite <- Hsize. apply to_int_id. unfold C.INT_MIN. fold n. lia.
    - unfold C.INT_MAX in Hint. lia. }
  assert (Hmod : 0 <= decode_bytes r mod size < size)
    by (apply Z.mod_pos_bound; lia).
  assert (Hdiv : decode_bytes r = size * n + decode_bytes r mod size)
    by (apply Z.div_mod; lia).
  assert (Hprod : C.INT_MIN <= fmt_channels r * af_fmt2bps af <= C.INT_MAX ->
                  size = fmt_channels r * af_fmt2bps af).
  { intros Hle. rewrite Hsize, Hss. apply to_int_id. exact Hle. }
  repeat split.
  - lia.
  - rewrite update_info_decoded. exact Hsam'.
  - nia.
  - nia.
  - intros Hrem. nia.
  - rewrite update_info_pts_offset, Hpts, Hsam', entered_pts_offset.
    fold base. apply to_int_id. exact Hoff.
  - exists af. split; [exact Haf|]. split; [rewrite Hsize; exact Hss|].
    intros Hle. split; [exact (Hprod Hle)|].
    rewrite update_info_decoded, Hsam'. unfold n. rewrite (Hprod Hle).
    reflexivity.
Qed.

Lemma decoded_samples_floor_witness :
  let r := replies MPG123_OK MPG123_OK MPG123_OK 4611 (frame 128 MPG123_CBR) in
  let da' := snd (decode_packet host0 (Some packet0) r) in
  fmt_channels r = 2 /\
  mpg123_format_to_af (fmt_encoding r) = Some AF_FORMAT_S16 /\
  af_fmt2bps AF_FORMAT_S16 = 2 /\
  sample_size (priv da') = 4 /\
  samples (decoded da') = 1152 /\
  1152 * 4 < 4611 /\
  pts_offset da' = 0 + 1152.
Proof.
  cbv zeta.
  destruct (decoded_samples_floor host0
              (snd (decode_packet host0 (Some packet0)
                      (replies MPG123_OK MPG123_OK MPG123_OK 4611
                         (frame 128 MPG123_CBR))))
              packet0
              (replies MPG123_OK MPG123_OK MPG123_OK 4611
                 (frame 128 MPG123_CBR)))
    as (_ & Hs & _ & _ & Ho & af & Haf & Hsz & Hprod).
  - reflexivity.
  - discriminate.
  - split; [discriminate | reflexivity].
  - vm_compute. discriminate.
  - vm_compute. split; discriminate.
  - assert (Eaf : af = AF_FORMAT_S16)
      by (change (Some AF_FORMAT_S16 = Some af) in Haf; congruence).
    subst af.
    assert (E4 : sample_size
                   (priv (snd (decode_packet host0 (Some packet0)
                                 (replies MPG123_OK MPG123_OK MPG123_OK 4611
                                    (frame 128 MPG123_CBR))))) = 4)
      by (rewrite Hsz; reflexivity).
    rewrite Hs, Ho, E4.
    repeat split.
Defined.

(** C8, as stated, fails: a decode error is returned where none of the
    claim's conditions holds.  A feed call that returns need-more (one of
    the four outcomes the claim lets pass) is a decode error, and so is a
    failed format query after a feed and a decode that both returned ok,
    with a signed-16 encoding and a sample size of 4. *)
Lemma feed_or_format_outcome_is_error :
  let r1 := replies MPG123_NEED_MORE MPG123_OK MPG123_OK 4608
              (frame 128 MPG123_CBR) in
  let r2 := replies MPG123_OK MPG123_OK MPG123_ERR 4608
              (frame 128 MPG123_CBR) in
  fst (decode_packet host0 (Some packet0) r1) = AD_ERR /\
  fst (decode_packet host0 (Some packet0) r2) = AD_ERR /\
  feed_ret r1 = MPG123_NEED_MORE /\ decode_ret r1 = MPG123_OK /\
  feed_ret r2 = MPG123_OK /\ decode_ret r2 = MPG123_OK /\
  fmt_encoding r1 = MPG123_ENC_SIGNED_16 /\
  fmt_encoding r2 = MPG123_ENC_SIGNED_16 /\
  fmt_channels r1 * af_fmt2bps AF_FORMAT_S16 = 4 /\
  fmt_channels r2 * af_fmt2bps AF_FORMAT_S16 = 4.
Proof. repeat split. Qed.

(** C8, amended: [decode_packet] returns a decode error exactly when a
    packet was read and one of these holds: the feed call returns an outcome
    other than ok; the decode call returns an outcome other than ok, done,
    new-format and need-more; or, the decode call having returned ok, done
    or new-format, the format query returns an outcome other than ok, or the
    reported encoding is not one of signed-8, signed-16, signed-32,
    float-32, or the computed per-sample-frame byte size is less than 1. *)
Theorem decode_error_iff :
  forall (da : dec_audio) (pkt : option demux_packet) (r : mpg123_replies),
    fst (decode_packet da pkt r) = AD_ERR <->
    pkt <> None /\
    (feed_ret r <> MPG123_OK \/
     (decode_ret r <> MPG123_OK /\ decode_ret r <> MPG123_DONE /\
      decode_ret r <> MPG123_NEW_FORMAT /\ decode_ret r <> MPG123_NEED_MORE) \/
     (decode_ret r <> MPG123_NEED_MORE /\
      (getformat_ret r <> MPG123_OK \/
       (fmt_encoding r <> MPG123_ENC_SIGNED_8 /\
        fmt_encoding r <> MPG123_ENC_SIGNED_16 /\
        fmt_encoding r <> MPG123_ENC_SIGNED_32 /\
        fmt_encoding r <> MPG123_ENC_FLOAT_32) \/
       (exists af, mpg123_format_to_af (fmt_encoding r) = Some af /\
                   C.to_int (fmt_channels r * af_fmt2bps af) < 1)))).
Proof.
  intros da [p|] r.
  2:{ rewrite decode_packet_eof. simpl. split; [discriminate | tauto]. }
  pose proof (decode_packet_path da p r) as P.
  rewrite <- mpg123_format_to_af_none.
  revert P. generalize (fst (decode_packet da (Some p) r))
                       (snd (decode_packet da (Some p) r)).
  intros st d' P.
  destruct P as
    [ Hf
    | Hf Hn
    | Hf Hn H1 H2 H3
    | da1 Hf Hn Hd Hbad Hest
    | af da1 Hf Hn Hd Hg Haf Hlt Hest
    | af da1 Hf Hn Hd Hg Haf Hss Hpos Hest Hsam Hpts ].
  - split; [intros _ | reflexivity]. split; [discriminate | tauto].
  - split; [discriminate |].
    intros [_ [H | [H | H]]]; [contradiction | tauto | tauto].
  - split; [intros _ | reflexivity]. split; [discriminate | tauto].
  - split; [intros _ | reflexivity]. split; [discriminate |].
    right; right. tauto.
  - split; [intros _ | reflexivity]. split; [discriminate |].
    right; right. split; [exact Hn |]. right; right. now exists af.
  - split; [discriminate |].
    intros [_ [H | [H | [_ [H | [H | [af' [Haf' Hlt]]]]]]]].
    + contradiction.
    + tauto.
    + contradiction.
    + congruence.
    + rewrite Haf in Haf'. injection Haf' as <-. rewrite <- Hss in Hlt. lia.
Qed.

(** C10: a call of [decode_packet] that does not complete a frame (end of
    stream, need more input, a feed, decode or format error) and a frame
    whose metadata query fails leave [mean_rate], [mean_count], [delay] and
    the shown bitrate as they were; they change only after a frame that was
    fed, decoded and formatted with success and whose metadata was read. *)
Theorem estimator_untouched_unless_decoded :
  forall (da : dec_audio) (pkt : option demux_packet) (r : mpg123_replies),
    let res := decode_packet da pkt r in
    (fst res <> AD_OK \/ decode_ret r = MPG123_NEED_MORE \/
     info_ret r <> MPG123_OK ->
     estimator (snd res) = estimator da) /\
    (estimator (snd res) <> estimator da ->
     fst res = AD_OK /\ pkt <> None /\ feed_ret r = MPG123_OK /\
     (decode_ret r = MPG123_OK \/ decode_ret r = MPG123_DONE \/
      decode_ret r = MPG123_NEW_FORMAT) /\
     getformat_ret r = MPG123_OK /\
     mpg123_format_to_af (fmt_encoding r) <> None /\
     1 <= sample_size (priv (snd res)) /\
     info_ret r = MPG123_OK).
Proof.
  intros da [p|] r; cbv zeta.
  2:{ rewrite decode_packet_eof. simpl.
      split; [reflexivity | intros H; exfalso; apply H; reflexivity]. }
  pose proof (decode_packet_path da p r) as P.
  pose proof (entered_estimator da p) as Hent.
  revert P. generalize (fst (decode_packet da (Some p) r))
                       (snd (decode_packet da (Some p) r)).
  intros st d' P. cbn [fst snd].
  destruct P as
    [ Hf
    | Hf Hn
    | Hf Hn H1 H2 H3
    | da1 Hf Hn Hd Hbad Hest
    | af da1 Hf Hn Hd Hg Haf Hlt Hest
    | af da1 Hf Hn Hd Hg Haf Hss Hpos Hest Hsam Hpts ];
    try (split; [intros _; congruence | intros Hch; exfalso; apply Hch;
                                         congruence]).
  split.
  - intros [H | [H | H]]; [congruence | contradiction |].
    rewrite (update_info_failed _ _ _ H). congruence.
  - intros Hch.
    assert (Hi : info_ret r = MPG123_OK).
    { destruct (Z.eq_dec (info_ret r) MPG123_OK) as [|Hne]; [assumption|].
      exfalso. apply Hch.
      rewrite (update_info_failed _ _ _ Hne). congruence. }
    rewrite update_info_sample_size.
    repeat split; try assumption; try discriminate. congruence.
Qed.

Lemma estimator_untouched_unless_decoded_witness :
  estimator
    (snd (decode_packet
            (update_all host0 [(MPG123_OK, frame 128 MPG123_VBR)])
            (Some packet0)
            (replies MPG123_OK MPG123_ERR MPG123_OK 4608
               (frame 320 MPG123_CBR))))
  = estimator (update_all host0 [(MPG123_OK, frame 128 MPG123_VBR)]) /\
  fst (decode_packet host0 (Some packet0)
         (replies MPG123_OK MPG123_OK MPG123_OK 4608 (frame 320 MPG123_CBR)))
  = AD_OK.
Proof.
  split.
  - apply (proj1 (estimator_untouched_unless_decoded
                    (update_all host0 [(MPG123_OK, frame 128 MPG123_VBR)])
                    (Some packet0)
                    (replies MPG123_OK MPG123_ERR MPG123_OK 4608
                       (frame 320 MPG123_CBR)))).
    left. discriminate.
  - apply (proj2 (estimator_untouched_unless_decoded host0 (Some packet0)
                    (replies MPG123_OK MPG123_OK MPG123_OK 4608
                       (frame 320 MPG123_CBR)))).
    discriminate.
Defined.

(** ** The observation counter *)

Lemma next_count_bound (n : Z) : 0 <= next_count n <= C.UINT_MAX / 2.
Proof.
  unfold next_count. pose proof (to_uint_range (n + 1)) as R.
  change (C.UINT_MAX / 2) with 2147483647.
  change (C.UINT_MAX / 4) with 1073741823.
  destruct (Z.gtb_spec (C.to_uint (n + 1)) 2147483647); lia.
Qed.

Lemma next_count_step (n : Z) :
  0 <= n <= C.UINT_MAX / 2 ->
  C.to_uint (n + 1) = n + 1 /\
  next_count n = (if n + 1 >? C.UINT_MAX / 2 then C.UINT_MAX / 4 else n + 1) /\
  1 <= next_count n.
Proof.
  intros H. unfold next_count.
  change (C.UINT_MAX / 2) with 2147483647 in *.
  change (C.UINT_MAX / 4) with 1073741823.
  assert (E : C.to_uint (n + 1) = n + 1)
    by (apply to_uint_id; unfold C.UINT_MAX; lia).
  rewrite E. repeat split.
  destruct (Z.gtb_spec (n + 1) 2147483647); lia.
Qed.

Lemma update_info_count_bound da ret fi :
  0 <= mean_count (priv da) <= C.UINT_MAX / 2 ->
  0 <= mean_count (priv (update_info da ret fi)) <= C.UINT_MAX / 2.
Proof.
  intros H. unfold update_info.
  destruct (ret =? MPG123_OK); simpl; [|exact H].
  destruct (vbr fi =? MPG123_CBR); simpl.
  - change (C.UINT_MAX / 2) with 2147483647. lia.
  - destruct (refresh_due (priv da)); simpl;
      [apply next_count_bound | exact H].
Qed.

Lemma update_all_count_bound frames : forall da,
  0 <= mean_count (priv da) <= C.UINT_MAX / 2 ->
  0 <= mean_count (priv (update_all da frames)) <= C.UINT_MAX / 2.
Proof.
  induction frames as [|[ret fi] rest IH]; intros da H; simpl.
  - exact H.
  - apply IH, update_info_count_bound, H.
Qed.

(** C4: along every sequence of estimator updates, started with the counter
    at most UINT_MAX/2 (a fresh session starts at 0), [mean_count] is at
    most UINT_MAX/2 after every update, so its increment never wraps around;
    a refresh whose increment would exceed UINT_MAX/2 sets it to UINT_MAX/4
    instead. *)
Theorem mean_count_never_wraps :
  forall (da : dec_audio) (frames : list (Z * mpg123_frameinfo)),
    0 <= mean_count (priv da) <= C.UINT_MAX / 2 ->
    let d := update_all da frames in
    0 <= mean_count (priv d) <= C.UINT_MAX / 2 /\
    C.to_uint (mean_count (priv d) + 1) = mean_count (priv d) + 1 /\
    (forall fi : mpg123_frameinfo,
        vbr fi <> MPG123_CBR -> refresh_due (priv d) = true ->
        mean_count (priv (update_info d MPG123_OK fi)) =
        if mean_count (priv d) + 1 >? C.UINT_MAX / 2
        then C.UINT_MAX / 4 else mean_count (priv d) + 1).
Proof.
  intros da frames H d.
  pose proof (update_all_count_bound frames da H) as B. fold d in B.
  destruct (next_count_step _ B) as (E1 & E2 & _).
  repeat split; try tauto.
  intros fi Hv Hr. rewrite (update_info_vbr _ _ Hv), Hr. simpl. exact E2.
Qed.

Lemma mean_count_never_wraps_witness :
  let da := set_priv host0 (context_at 2147483646 10 (F32.of_Z 128000)) in
  let d := update_all da (repeat (MPG123_OK, frame 128 MPG123_VBR) 19) in
  mean_count (priv d) = 2147483647 /\
  mean_count (priv (update_info d MPG123_OK (frame 128 MPG123_VBR)))
  = 1073741823.
Proof.
  split; [vm_compute; reflexivity |].
  assert (H : 0 <= mean_count
                     (priv (set_priv host0
                              (context_at 2147483646 10 (F32.of_Z 128000))))
              <= C.UINT_MAX / 2)
    by (vm_compute; split; discriminate).
  destruct (mean_count_never_wraps _
              (repeat (MPG123_OK, frame 128 MPG123_VBR) 19) H)
    as (_ & _ & W).
  rewrite (W (frame 128 MPG123_VBR));
    [vm_compute; reflexivity | discriminate | vm_compute; reflexivity].
Defined.

(** ** The delay counter of the variable-bitrate branch *)

Lemma update_info_vbr_quiet da fi :
  vbr fi <> MPG123_CBR -> refresh_due (priv da) = false ->
  delay (priv (update_info da MPG123_OK fi)) = delay_decremented (priv da) /\
  da_bitrate (update_info da MPG123_OK fi) = da_bitrate da /\
  mean_rate (priv (update_info da MPG123_OK fi)) = mean_rate (priv da) /\
  mean_count (priv (update_info da MPG123_OK fi)) = mean_count (priv da).
Proof.
  intros Hv Hr. rewrite (update_info_vbr _ _ Hv), Hr. repeat split.
Qed.

Lemma update_info_vbr_refresh da fi :
  vbr fi <> MPG123_CBR -> refresh_due (priv da) = true ->
  delay (priv (update_info da MPG123_OK fi)) = 10.
Proof.
  intros Hv Hr. rewrite (update_info_vbr _ _ Hv), Hr. reflexivity.
Qed.

(** With the counter at [d], the next [d - 1] variable-bitrate frames do not
    refresh. *)
Lemma no_refresh_while_counting frames : forall da,
  Forall frame_vbr frames ->
  1 <= delay (priv da) <= 32767 ->
  Z.of_nat (length frames) < delay (priv da) ->
  refresh_count da frames = 0%nat /\
  da_bitrate (update_all da frames) = da_bitrate da /\
  delay (priv (update_all da frames))
  = delay (priv da) - Z.of_nat (length frames).
Proof.
  induction frames as [|[ret fi] rest IH]; intros da Hall Hd Hlen.
  - simpl. repeat split. lia.
  - inversion Hall as [|x l [Hok Hv] Hrest]; subst.
    unfold info_ok in Hok. simpl in Hok, Hv. subst ret.
    simpl length in Hlen. rewrite Nat2Z.inj_succ in Hlen.
    assert (Hdec : delay_decremented (priv da) = delay (priv da) - 1)
      by (apply to_short_id; lia).
    assert (Hr : refresh_due (priv da) = false)
      by (unfold refresh_due; rewrite Hdec; apply Z.ltb_ge; lia).
    destruct (update_info_vbr_quiet da fi Hv Hr) as (Ed & Eb & _).
    destruct (IH (update_info da MPG123_OK fi) Hrest) as (I1 & I2 & I3);
      [rewrite Ed, Hdec; lia | rewrite Ed, Hdec; lia |].
    simpl. rewrite Hr, I1, I2, I3, Eb, Ed, Hdec.
    destruct (vbr fi =? MPG123_CBR); simpl; repeat split; lia.
Qed.

Lemma refresh_count_window frames : forall da,
  Forall frame_vbr frames ->
  (length frames <= 10)%nat ->
  (refresh_count da frames <= 1)%nat.
Proof.
  induction frames as [|[ret fi] rest IH]; intros da Hall Hlen.
  - simpl. lia.
  - inversion Hall as [|x l [Hok Hv] Hrest]; subst.
    unfold info_ok in Hok. simpl in Hok, Hv. subst ret.
    simpl in Hlen. simpl refresh_count.
    destruct (refresh_due (priv da)) eqn:Hr.
    + pose proof (update_info_vbr_refresh da fi Hv Hr) as Ed.
      destruct (no_refresh_while_counting rest (update_info da MPG123_OK fi)
                  Hrest) as (E0 & _); [rewrite Ed; lia | rewrite Ed; lia |].
      rewrite E0. destruct (vbr fi =? MPG123_CBR); simpl; lia.
    + specialize (IH (update_info da MPG123_OK fi) Hrest).
      rewrite andb_false_r. simpl. apply IH. lia.
Qed.

Lemma no_refresh_no_change frames : forall da,
  Forall frame_vbr frames ->
  refresh_count da frames = 0%nat ->
  da_bitrate (update_all da frames) = da_bitrate da /\
  mean_rate (priv (update_all da frames)) = mean_rate (priv da) /\
  mean_count (priv (update_all da frames)) = mean_count (priv da).
Proof.
  induction frames as [|[ret fi] rest IH]; intros da Hall H0.
  - repeat split.
  - inversion Hall as [|x l [Hok Hv] Hrest]; subst.
    unfold info_ok in Hok. simpl in Hok, Hv. subst ret.
    simpl in H0.
    destruct (Z.eqb_spec (vbr fi) MPG123_CBR) as [|_]; [contradiction|].
    destruct (refresh_due (priv da)) eqn:Hr; simpl in H0; [discriminate|].
    destruct (update_info_vbr_quiet da fi Hv Hr) as (_ & Eb & Em & Ec).
    destruct (IH (update_info da MPG123_OK fi) Hrest H0) as (I1 & I2 & I3).
    simpl. rewrite I1, I2, I3. auto.
Qed.

(** C2, as stated, fails: the delay counter of a fresh session is 0, not 10,
    and the first variable-bitrate frame already refreshes the shown
    bitrate. *)
Lemma first_vbr_frame_refreshes :
  let da := fresh_session host0 in
  let f := frame 128 MPG123_VBR in
  delay (priv da) = 0 /\
  da_bitrate da = 0 /\
  da_bitrate (update_info da MPG123_OK f) = 128000 /\
  refresh_count da [(MPG123_OK, f)] = 1%nat.
Proof. repeat split. Qed.

(** C2, amended: in every sequence of variable-bitrate frames the shown
    bitrate is refreshed at most once in any 10 consecutive frames.  The
    delay counter is 0 in a fresh session (1 after a constant-bitrate
    frame), so the first variable-bitrate frame refreshes at once; the
    counter is decremented on each frame, the shown value changes only on a
    frame whose decremented counter is below 1, and the counter is then set
    to 10, so that the next nine frames leave the shown value alone. *)
Theorem vbr_refresh_once_in_ten :
  forall (da : dec_audio) (frames : list (Z * mpg123_frameinfo)),
    Forall frame_vbr frames ->
    ((length frames <= 10)%nat -> (refresh_count da frames <= 1)%nat) /\
    (refresh_count da frames = 0%nat ->
     da_bitrate (update_all da frames) = da_bitrate da) /\
    (forall f rest, frames = f :: rest ->
       let da' := update_info da (fst f) (snd f) in
       (refresh_due (priv da) = false ->
        delay (priv da') = delay_decremented (priv da) /\
        da_bitrate da' = da_bitrate da) /\
       (refresh_due (priv da) = true ->
        delay (priv da') = 10 /\
        ((length rest <= 9)%nat -> refresh_count da' rest = 0%nat)) /\
       (delay (priv da) = 0 \/ delay (priv da) = 1 ->
        refresh_due (priv da) = true)).
Proof.
  intros da frames Hall. split; [|split].
  - apply refresh_count_window, Hall.
  - intros H0. apply (no_refresh_no_change frames da Hall H0).
  - intros [ret fi] rest ->. simpl fst; simpl snd. cbv zeta.
    inversion Hall as [|x l [Hok Hv] Hrest]; subst.
    unfold info_ok in Hok. simpl in Hok, Hv. subst ret.
    split; [|split].
    + intros Hr. destruct (update_info_vbr_quiet da fi Hv Hr) as (Ed & Eb & _).
      auto.
    + intros Hr. pose proof (update_info_vbr_refresh da fi Hv Hr) as Ed.
      split; [exact Ed |]. intros Hlen.
      apply (no_refresh_while_counting rest _ Hrest); rewrite Ed; lia.
    + intros [H | H]; unfold refresh_due, delay_decremented; rewrite H;
        reflexivity.
Qed.

Lemma vbr_refresh_once_in_ten_witness :
  (refresh_count
     (update_all host0 (repeat (MPG123_OK, frame 128 MPG123_VBR) 4))
     (repeat (MPG123_OK, frame 192 MPG123_VBR) 10) <= 1)%nat.
Proof.
  apply (proj1 (vbr_refresh_once_in_ten
                  (update_all host0 (repeat (MPG123_OK, frame 128 MPG123_VBR) 4))
                  (repeat (MPG123_OK, frame 192 MPG123_VBR) 10)
                  ltac:(repeat constructor; discriminate))).
  simpl. lia.
Defined.

(** ** The running mean *)

(** C3: on every refresh of the variable-bitrate estimate (in a state whose
    counter is at most UINT_MAX/2, as every state of a session is), the new
    mean is ((count - 1) * old_mean + new_bitrate) / count in [float]
    arithmetic, where count is the counter after its increment (old count
    + 1, or UINT_MAX/4 when that would exceed UINT_MAX/2) and new_bitrate
    the frame's reported bitrate in bits per second; the shown bitrate is
    that mean plus 0.5 cast to [int]. *)
Theorem vbr_refresh_running_mean :
  forall (da : dec_audio) (fi : mpg123_frameinfo),
    vbr fi <> MPG123_CBR ->
    refresh_due (priv da) = true ->
    0 <= mean_count (priv da) <= C.UINT_MAX / 2 ->
    C.INT_MIN <= bitrate fi * 1000 <= C.INT_MAX ->
    let da' := update_info da MPG123_OK fi in
    let count := mean_count (priv da') in
    mean_rate (priv da')
    = running_mean_formula count (mean_rate (priv da)) (bitrate fi * 1000) /\
    count = (if mean_count (priv da) + 1 >? C.UINT_MAX / 2
             then C.UINT_MAX / 4 else mean_count (priv da) + 1) /\
    da_bitrate da'
    = F64.to_int (F64.add (F64.of_float (mean_rate (priv da'))) F64.half).
Proof.
  intros da fi Hv Hr Hc Hb. cbv zeta.
  rewrite (update_info_vbr _ _ Hv), Hr. cbn [priv set_priv mean_rate
    mean_count set_delay set_mean da_bitrate set_bitrate].
  destruct (next_count_step _ Hc) as (_ & E2 & E3).
  repeat split; [| exact E2].
  unfold next_mean, running_mean_formula.
  rewrite (to_int_id _ Hb). rewrite to_uint_id; [reflexivity |].
  pose proof (next_count_bound (mean_count (priv da))) as B.
  change (C.UINT_MAX / 2) with 2147483647 in B. unfold C.UINT_MAX. lia.
Qed.

Lemma vbr_refresh_running_mean_witness :
  let da := update_all host0
              ((MPG123_OK, frame 128 MPG123_VBR)
               :: repeat (MPG123_OK, frame 64 MPG123_VBR) 9) in
  let da' := update_info da MPG123_OK (frame 192 MPG123_VBR) in
  mean_rate (priv da) = F32.of_Z 128000 /\
  mean_count (priv da') = 2 /\
  mean_rate (priv da') = F32.of_Z 160000 /\
  da_bitrate da' = 160000.
Proof.
  cbv zeta.
  destruct (vbr_refresh_running_mean
              (update_all host0
                 ((MPG123_OK, frame 128 MPG123_VBR)
                  :: repeat (MPG123_OK, frame 64 MPG123_VBR) 9))
              (frame 192 MPG123_VBR))
    as (E1 & E2 & E3).
  - discriminate.
  - vm_compute. reflexivity.
  - vm_compute. split; discriminate.
  - vm_compute. split; discriminate.
  - rewrite E3, E1, E2. vm_compute. repeat split.
Defined.

(** ** Exact [double] arithmetic on small integers *)

Lemma digits2_pos_bounds (p : positive) :
  2 ^ (Zpos (digits2_pos p) - 1) <= Zpos p < 2 ^ Zpos (digits2_pos p).
Proof.
  induction p as [p IH | p IH |]; cbn [digits2_pos].
  - rewrite Pos2Z.inj_succ, Z.pow_succ_r by lia.
    replace (Z.succ (Zpos (digits2_pos p)) - 1)
      with (Z.succ (Zpos (digits2_pos p) - 1)) by lia.
    rewrite Z.pow_succ_r by lia. lia.
  - rewrite Pos2Z.inj_succ, Z.pow_succ_r by lia.
    replace (Z.succ (Zpos (digits2_pos p)) - 1)
      with (Z.succ (Zpos (digits2_pos p) - 1)) by lia.
    rewrite Z.pow_succ_r by lia. lia.
  - simpl. lia.
Qed.

Lemma digits2_pos_unique (p : positive) (k : Z) :
  2 ^ (k - 1) <= Zpos p < 2 ^ k -> Zpos (digits2_pos p) = k.
Proof.
  intros [Hl Hu]. pose proof (digits2_pos_bounds p) as [Bl Bu].
  assert (0 < k).
  { destruct (Z.ltb_spec 0 k); [assumption|].
    destruct (Z.eq_dec k 0) as [->|].
    - simpl in Hu. lia.
    - rewrite (Z.pow_neg_r 2 k) in Hu by lia. lia. }
  assert (k - 1 < Zpos (digits2_pos p)).
  { apply (Z.pow_lt_mono_r_iff 2); lia. }
  assert (Zpos (digits2_pos p) - 1 < k).
  { apply (Z.pow_lt_mono_r_iff 2); lia. }
  lia.
Qed.

Lemma iter_xO_value (n m : positive) :
  Zpos (Pos.iter xO m n) = Zpos m * 2 ^ Zpos n.
Proof.
  induction n as [|n IH] using Pos.peano_ind.
  - simpl. lia.
  - rewrite Pos.iter_succ, Pos2Z.inj_succ, Z.pow_succ_r by lia.
    rewrite Pos2Z.inj_xO, IH. lia.
Qed.

Lemma iter_shr_1_exact (n : positive) : forall m : positive,
  iter_pos shr_1 n (Build_shr_record (Zpos (Pos.iter xO m n)) false false)
  = Build_shr_record (Zpos m) false false.
Proof.
  induction n as [n IH | n IH |]; intros m; cbn [iter_pos Pos.iter].
  - cbn [shr_1 orb]. rewrite IH. apply IH.
  - rewrite IH. apply IH.
  - reflexivity.
Qed.

Lemma fexp64 (e : Z) : -1021 <= e -> fexp F64.prec F64.emax e = e - 53.
Proof.
  intros H. unfold fexp, emin, F64.prec, F64.emax. lia.
Qed.

Lemma shl_align_up (m : positive) (e e' : Z) :
  e <= e' -> shl_align m e e' = (m, e).
Proof.
  intros H. unfold shl_align. destruct (e' - e) eqn:E; try reflexivity. lia.
Qed.

Lemma shl_align_down (m d : positive) (e e' : Z) :
  e' - e = Z.neg d -> shl_align m e e' = (Pos.iter xO m d, e').
Proof. intros H. unfold shl_align. rewrite H. reflexivity. Qed.

(** A mantissa that is a 53-bit one shifted left by [n] rounds to it,
    exactly. *)
Lemma binary_round_aux_exact (s : bool) (m0 m : positive) (n e : Z) :
  Zpos (digits2_pos m0) = 53 ->
  0 <= n ->
  Zpos m = Zpos m0 * 2 ^ n ->
  -1074 <= e + n <= 971 ->
  binary_round_aux F64.prec F64.emax s (Zpos m) e loc_Exact
  = S754_finite s m0 (e + n).
Proof.
  intros Hd Hn Hm He.
  assert (Hdm : Zpos (digits2_pos m) = 53 + n).
  { apply digits2_pos_unique. rewrite Hm.
    pose proof (digits2_pos_bounds m0) as B. rewrite Hd in B.
    replace (53 + n - 1) with (52 + n) by lia.
    rewrite !Z.pow_add_r by lia.
    change (2 ^ (53 - 1)) with (2 ^ 52) in B.
    assert (0 < 2 ^ n) by (apply Z.pow_pos_nonneg; lia). nia. }
  unfold binary_round_aux, shr_fexp.
  cbn [Zdigits2 shr_record_of_loc]. rewrite Hdm.
  rewrite fexp64 by lia.
  replace (53 + n + e - 53 - e) with n by lia.
  destruct n as [|n|n]; [| |lia].
  - assert (m = m0) by lia. subst m.
    cbn [shr shr_m loc_of_shr_record round_nearest_even Zdigits2].
    rewrite Hd, fexp64 by lia.
    replace (53 + e - 53 - e) with 0 by lia.
    cbn [shr shr_m]. rewrite Z.add_0_r.
    unfold F64.emax, F64.prec.
    destruct (Z.leb_spec e (1024 - 53)); [reflexivity | lia].
  - assert (m = Pos.iter xO m0 n).
    { apply Pos2Z.inj. rewrite iter_xO_value. exact Hm. }
    subst m. cbn [shr]. rewrite iter_shr_1_exact.
    cbn [shr_m loc_of_shr_record round_nearest_even Zdigits2].
    rewrite Hd, fexp64 by lia.
    replace (53 + (e + Z.pos n) - 53 - (e + Z.pos n)) with 0 by lia.
    cbn [shr shr_m].
    unfold F64.emax, F64.prec.
    destruct (Z.leb_spec (e + Z.pos n) (1024 - 53)); [reflexivity | lia].
Qed.

(** The [double] of a positive integer of at most 52 bits. *)
Lemma of_Z_pos (p : positive) :
  let k := 53 - Zpos (digits2_pos p) in
  0 < k ->
  exists m0 : positive,
    Zpos m0 = Zpos p * 2 ^ k /\
    Zpos (digits2_pos m0) = 53 /\
    F64.of_Z (Zpos p) = S754_finite false m0 (- k).
Proof.
  intros k Hk.
  pose proof (digits2_pos_bounds p) as B.
  assert (Hd : Zpos (digits2_pos p) = 53 - k) by (unfold k; lia).
  destruct k as [|kp|kp] eqn:Ek; try lia.
  exists (Pos.iter xO p kp).
  assert (Hv : Zpos (Pos.iter xO p kp) = Zpos p * 2 ^ Zpos kp)
    by apply iter_xO_value.
  assert (Hd0 : Zpos (digits2_pos (Pos.iter xO p kp)) = 53).
  { apply digits2_pos_unique. rewrite Hv. rewrite Hd in B.
    replace (53 - Z.pos kp - 1) with (52 - Z.pos kp) in B by lia.
    assert (E1 : 2 ^ 53 = 2 ^ (53 - Z.pos kp) * 2 ^ Z.pos kp)
      by (rewrite <- Z.pow_add_r by lia; f_equal; lia).
    assert (E2 : 2 ^ (53 - 1) = 2 ^ (52 - Z.pos kp) * 2 ^ Z.pos kp)
      by (rewrite <- Z.pow_add_r by lia; f_equal; lia).
    rewrite E1, E2.
    assert (0 < 2 ^ Z.pos kp) by (apply Z.pow_pos_nonneg; lia). nia. }
  repeat split; try assumption.
  unfold F64.of_Z, binary_normalize, binary_round, shl_align.
  rewrite Z.add_0_r, Hd, fexp64 by lia.
  replace (53 - Z.pos kp - 53 - 0) with (Z.neg kp) by lia.
  replace (53 - Z.pos kp - 53) with (Z.neg kp) by lia.
  rewrite (binary_round_aux_exact false (Pos.iter xO p kp) _ 0 (Z.neg kp));
    [ f_equal; lia | assumption | lia | change (2 ^ 0) with 1; lia | lia ].
Qed.

(** Adding [0.5] to the [double] of a positive integer of at most 52 bits
    and casting back gives the integer. *)
Lemma trunc_add_half_pos (p : positive) :
  Zpos (digits2_pos p) < 53 ->
  F64.trunc (F64.add (F64.of_Z (Zpos p)) F64.half) = Some (Zpos p).
Proof.
  intros Hlt.
  destruct (of_Z_pos p) as (m0 & Hm0 & Hd0 & ->); [lia|].
  pose proof (digits2_pos_bounds p) as B.
  set (d := digits2_pos p) in *.
  set (k := 53 - Zpos d) in *.
  assert (Hk : 1 <= k <= 52) by (unfold k; lia).
  assert (P53 : 2 ^ 53 = 2 ^ Zpos d * 2 ^ k)
    by (rewrite <- Z.pow_add_r by lia; f_equal; lia).
  assert (Pk : 2 ^ k = 2 * 2 ^ (k - 1))
    by (rewrite <- Z.pow_succ_r by lia; f_equal; lia).
  assert (Pd : 2 ^ Zpos d = 2 * 2 ^ (Zpos d - 1))
    by (rewrite <- Z.pow_succ_r by lia; f_equal; lia).
  assert (K0 : 0 < 2 ^ (k - 1)) by (apply Z.pow_pos_nonneg; lia).
  assert (D0 : 0 < 2 ^ (Zpos d - 1)) by (apply Z.pow_pos_nonneg; lia).
  (* the sum, aligned on exponent -53 *)
  unfold F64.add, F64.half, SFadd.
  replace (Z.min (- k) (-53)) with (-53) by lia.
  rewrite (shl_align_up _ (-53) (-53)) by lia.
  rewrite (shl_align_down m0 d (- k) (-53)) by lia.
  cbn [fst cond_Zopp].
  set (a := Pos.iter xO m0 d).
  assert (Ha : Zpos a = Zpos p * 2 ^ 53).
  { unfold a. rewrite iter_xO_value, Hm0, P53. lia. }
  change (Zpos a + 4503599627370496) with (Zpos (a + 4503599627370496)).
  unfold binary_normalize, binary_round.
  assert (Hs : Zpos (a + 4503599627370496) = Zpos p * 2 ^ 53 + 2 ^ 52)
    by (rewrite Pos2Z.inj_add, Ha; reflexivity).
  assert (Hds : Zpos (digits2_pos (a + 4503599627370496)) = 53 + Zpos d).
  { apply digits2_pos_unique. rewrite Hs.
    replace (53 + Zpos d - 1) with (Zpos d - 1 + 53) by lia.
    rewrite (Z.add_comm 53), !Z.pow_add_r by lia.
    change (2 ^ 52) with 4503599627370496.
    change (2 ^ 53) with 9007199254740992. lia. }
  rewrite Hds, fexp64 by lia.
  rewrite shl_align_up by lia.
  (* its 53-bit mantissa *)
  assert (Hq : 0 < Zpos p * 2 ^ k + 2 ^ (k - 1)) by lia.
  destruct (Zpos p * 2 ^ k + 2 ^ (k - 1)) as [|q|q] eqn:Eq; try lia.
  rewrite (binary_round_aux_exact false q _ (Zpos d) (-53)).
  - cbn [F64.trunc cond_Zopp].
    replace (-53 + Zpos d) with (- k) by lia.
    destruct k as [|kp|kp] eqn:Ek; try lia. cbn [Z.opp].
    rewrite Z.shiftr_div_pow2 by lia. rewrite <- Eq.
    f_equal. rewrite Z.add_comm, Z.div_add by lia.
    rewrite Z.div_small by lia. reflexivity.
  - apply digits2_pos_unique. rewrite <- Eq.
    change (2 ^ (53 - 1)) with (2 ^ 52).
    assert (P52 : 2 ^ 52 = 2 ^ (Zpos d - 1) * 2 ^ k)
      by (rewrite <- Z.pow_add_r by lia; f_equal; lia).
    rewrite P53, P52. nia.
  - lia.
  - rewrite Hs, <- Eq, P53.
    change (2 ^ 52) with (2 ^ (53 - 1)).
    assert (P52 : 2 ^ (53 - 1) = 2 ^ (k - 1) * 2 ^ Zpos d)
      by (rewrite <- Z.pow_add_r by lia; f_equal; lia).
    rewrite P52. ring.
  - lia.
Qed.

(** [(int) (q + 0.5)] is [q] for an integer [q] from 0 to INT_MAX. *)
Lemma cast_add_half (q : Z) :
  0 <= q <= C.INT_MAX ->
  F64.to_int (F64.add (F64.of_Z q) F64.half) = q.
Proof.
  intros [H0 Hm]. destruct q as [|p|p]; [reflexivity | | lia].
  unfold F64.to_int. rewrite trunc_add_half_pos.
  - unfold C.in_int, C.INT_MIN.
    destruct (Z.leb_spec (-2147483648) (Zpos p)); [|lia].
    destruct (Z.leb_spec (Zpos p) C.INT_MAX); [reflexivity | lia].
  - pose proof (digits2_pos_bounds p) as [B _].
    assert (Zpos (digits2_pos p) - 1 < 31).
    { apply (Z.pow_lt_mono_r_iff 2); [lia | lia |].
      unfold C.INT_MAX in Hm. change (2 ^ 31) with 2147483648. lia. }
    lia.
Qed.

(** ** The bitrate computed from the frame size *)

Lemma round_quotient_down (n d : Z) :
  0 < d -> 0 <= n -> 2 * (n mod d) < d -> round_quotient n d = n / d.
Proof.
  intros Hd Hn Hr. unfold round_quotient.
  pose proof (Z.div_mod n d ltac:(lia)) as E.
  pose proof (Z.mod_pos_bound n d Hd) as B.
  symmetry. apply (Z.div_unique _ _ _ (2 * (n mod d) + d)); lia.
Qed.

(** What [compute_bitrate] returns on a frame of the table, with no
    overflow on the way. *)
Lemma compute_bitrate_quotient (fi : mpg123_frameinfo) (spf : Z) :
  samples_per_frame_at (version fi) (layer fi) = Some spf ->
  0 < spf ->
  0 <= framesize fi -> (framesize fi + 4) * 8 <= C.INT_MAX ->
  0 <= rate fi ->
  (framesize fi + 4) * 8 * rate fi / spf <= C.INT_MAX ->
  (framesize fi + 4) * 8 * rate fi < 2 ^ 63 ->
  compute_bitrate fi = (framesize fi + 4) * 8 * rate fi / spf.
Proof.
  intros Ht Hs Hf Hb Hr Hq Hl. unfold compute_bitrate. rewrite Ht.
  unfold C.INT_MAX in *.
  rewrite (to_int_id (framesize fi + 4)) by (unfold C.INT_MIN, C.INT_MAX; lia).
  rewrite (to_int_id (_ * 8)) by (unfold C.INT_MIN, C.INT_MAX; lia).
  assert (0 <= (framesize fi + 4) * 8 * rate fi) by nia.
  rewrite (to_long_id ((framesize fi + 4) * 8 * rate fi)) by lia.
  rewrite Z.quot_div_nonneg by lia.
  assert (0 <= (framesize fi + 4) * 8 * rate fi / spf)
    by (apply Z.div_pos; lia).
  rewrite to_long_id by (change (2 ^ 63) with 9223372036854775808; lia).
  apply cast_add_half. unfold C.INT_MAX. lia.
Qed.

(** C5, as stated, fails: for MPEG-1 layer III, frame size 417 and sample
    rate 44100 the fallback gives 128931 (which is also what the formula of
    the claim gives), not 134420; and the code divides in integers before
    it adds 0.5, so a quotient with a fractional part of a half or more is
    not rounded up: frame size 2 gives 1837 where the formula gives 1838. *)
Lemma zero_bitrate_example_value :
  da_bitrate (update_info host0 MPG123_OK (free_format_frame 417)) = 128931 /\
  analytic_bitrate 417 44100 1152 = 128931 /\
  128931 <> 134420 /\
  da_bitrate (update_info host0 MPG123_OK (free_format_frame 2)) = 1837 /\
  analytic_bitrate 2 44100 1152 = 1838.
Proof. repeat split. discriminate. Qed.

(** C5, amended: for every constant-bitrate frame whose reported bitrate is
    zero, of a version and layer with a samples-per-frame entry, the
    estimate falls back to the analytic value
    round((frame_size_bytes + 4) * 8 * sample_rate / samples_per_frame)
    whenever the fractional part of that quotient is below one half (and
    nothing overflows); in particular for MPEG-1 layer III with frame size
    417 bytes and sample rate 44100 the result is 128931 bits/second. *)
Theorem zero_bitrate_falls_back :
  forall (da : dec_audio) (fi : mpg123_frameinfo) (spf : Z),
    vbr fi = MPG123_CBR ->
    bitrate fi = 0 ->
    samples_per_frame_at (version fi) (layer fi) = Some spf ->
    0 < spf ->
    0 <= framesize fi -> (framesize fi + 4) * 8 <= C.INT_MAX ->
    0 <= rate fi ->
    let bits := (framesize fi + 4) * 8 * rate fi in
    bits < 2 ^ 63 ->
    bits / spf <= C.INT_MAX ->
    2 * (bits mod spf) < spf ->
    da_bitrate (update_info da MPG123_OK fi)
    = analytic_bitrate (framesize fi) (rate fi) spf /\
    da_bitrate (update_info da MPG123_OK (free_format_frame 417)) = 128931.
Proof.
  intros da fi spf Hc Hb Ht Hs Hf Hi Hr bits Hl Hq Hh. split.
  - rewrite (update_info_cbr _ _ Hc), Hb. cbn [da_bitrate set_priv set_bitrate].
    change (C.to_int (0 * 1000) =? 0) with true. cbv iota.
    rewrite (compute_bitrate_quotient fi spf) by assumption.
    unfold analytic_bitrate. fold bits. symmetry.
    apply round_quotient_down; [lia | unfold bits; nia | exact Hh].
  - rewrite (update_info_cbr da (free_format_frame 417) eq_refl). reflexivity.
Qed.

Lemma zero_bitrate_falls_back_witness :
  da_bitrate (update_info host0 MPG123_OK (free_format_frame 417))
  = analytic_bitrate 417 44100 1152 /\
  da_bitrate (update_info host0 MPG123_OK (free_format_frame 417)) = 128931.
Proof.
  apply (zero_bitrate_falls_back host0 (free_format_frame 417) 1152);
    try reflexivity; vm_compute; discriminate.
Defined.

(** * Further properties of the estimator *)

Lemma update_info_delay_bound da ret fi :
  0 <= delay (priv da) <= 10 ->
  0 <= delay (priv (update_info da ret fi)) <= 10.
Proof.
  intros H. unfold update_info.
  destruct (ret =? MPG123_OK); simpl; [|exact H].
  destruct (vbr fi =? MPG123_CBR); simpl; [lia|].
  unfold refresh_due.
  assert (E : delay_decremented (priv da) = delay (priv da) - 1)
    by (apply to_short_id; lia).
  destruct (Z.ltb_spec (delay_decremented (priv da)) 1); simpl; lia.
Qed.

(** X1: along every sequence of estimator updates started with the delay
    counter between 0 and 10 (0 in a fresh session), the counter stays
    between 0 and 10, so its decrement as a [short] never wraps; and once a
    frame has been reported it is at least 1. *)
Theorem delay_stays_in_window :
  forall (da : dec_audio) (frames : list (Z * mpg123_frameinfo)),
    0 <= delay (priv da) <= 10 ->
    let d := update_all da frames in
    0 <= delay (priv d) <= 10 /\
    delay_decremented (priv d) = delay (priv d) - 1 /\
    (Exists info_ok frames -> 1 <= delay (priv d)).
Proof.
  intros da frames. revert da.
  assert (pos : forall l d, 1 <= delay (priv d) <= 10 ->
                  1 <= delay (priv (update_all d l)) <= 10).
  { induction l as [|[ret fi] l IH]; intros d H; simpl; [exact H|].
    apply IH. unfold update_info.
    destruct (ret =? MPG123_OK); simpl; [|exact H].
    destruct (vbr fi =? MPG123_CBR); simpl; [lia|].
    unfold refresh_due.
    assert (E : delay_decremented (priv d) = delay (priv d) - 1)
      by (apply to_short_id; lia).
    destruct (Z.ltb_spec (delay_decremented (priv d)) 1); simpl; lia. }
  induction frames as [|[ret fi] rest IH]; intros da H; cbv zeta.
  - simpl. repeat split; try lia.
    + apply to_short_id. lia.
    + intros E. inversion E.
  - simpl update_all.
    destruct (IH (update_info da ret fi) (update_info_delay_bound _ _ _ H))
      as (I1 & I2 & I3).
    repeat split; try lia.
    intros E. inversion E as [x l Hok | x l Hex]; subst.
    + unfold info_ok in Hok. simpl in Hok. subst ret.
      apply pos. unfold update_info. simpl.
      destruct (vbr fi =? MPG123_CBR); simpl; [lia|].
      unfold refresh_due.
      assert (E1 : delay_decremented (priv da) = delay (priv da) - 1)
        by (apply to_short_id; lia).
      destruct (Z.ltb_spec (delay_decremented (priv da)) 1); simpl; lia.
    + apply I3, Hex.
Qed.

Lemma delay_stays_in_window_witness :
  let d := update_all (fresh_session host0)
             (repeat (MPG123_OK, frame 128 MPG123_VBR) 25) in
  0 <= delay (priv d) <= 10 /\
  delay_decremented (priv d) = delay (priv d) - 1 /\
  (Exists info_ok (repeat (MPG123_OK, frame 128 MPG123_VBR) 25) ->
   1 <= delay (priv d)).
Proof.
  apply (delay_stays_in_window (fresh_session host0)
           (repeat (MPG123_OK, frame 128 MPG123_VBR) 25)).
  vm_compute. split; discriminate.
Defined.

Lemma refresh_count_from frames : forall da,
  Forall frame_vbr frames ->
  0 <= delay (priv da) <= 10 ->
  refresh_count da frames
  = Nat.div (length frames + 10 - Z.to_nat (Z.max 1 (delay (priv da)))) 10.
Proof.
  induction frames as [|[ret fi] rest IH]; intros da Hall Hd.
  - cbn [refresh_count length]. symmetry. apply Nat.div_small. lia.
  - inversion Hall as [|x l [Hok Hv] Hrest]; subst.
    unfold info_ok in Hok. simpl in Hok, Hv. subst ret.
    assert (Hdec : delay_decremented (priv da) = delay (priv da) - 1)
      by (apply to_short_id; lia).
    cbn [refresh_count length].
    destruct (Z.eqb_spec (vbr fi) MPG123_CBR) as [|_]; [contradiction|].
    cbn [negb andb Z.eqb MPG123_OK].
    destruct (refresh_due (priv da)) eqn:Hr.
    + pose proof (update_info_vbr_refresh da fi Hv Hr) as Ed.
      rewrite (IH _ Hrest) by (rewrite Ed; lia). rewrite Ed.
      unfold refresh_due in Hr. rewrite Hdec in Hr. apply Z.ltb_lt in Hr.
      replace (Z.to_nat (Z.max 1 (delay (priv da)))) with 1%nat by lia.
      replace (Z.to_nat (Z.max 1 10)) with 10%nat by lia.
      replace (S (length rest) + 10 - 1)%nat
        with (length rest + 10 - 10 + 1 * 10)%nat by lia.
      rewrite Nat.div_add by lia. lia.
    + destruct (update_info_vbr_quiet da fi Hv Hr) as (Ed & _).
      unfold refresh_due in Hr. rewrite Hdec in Hr. apply Z.ltb_ge in Hr.
      rewrite (IH _ Hrest) by (rewrite Ed, Hdec; lia). rewrite Ed, Hdec.
      cbn [Nat.add]. f_equal. lia.
Qed.

(** X2: in a run of variable-bitrate frames that starts in a fresh session
    or right after a constant-bitrate frame (delay counter 0 or 1), the
    shown bitrate is refreshed on the first frame and then exactly on every
    tenth frame after it: [n] frames make ceil(n / 10) refreshes. *)
Theorem vbr_refresh_every_tenth :
  forall (da : dec_audio) (frames : list (Z * mpg123_frameinfo)),
    Forall frame_vbr frames ->
    0 <= delay (priv da) <= 1 ->
    refresh_count da frames = windows (length frames).
Proof.
  intros da frames Hall Hd. rewrite refresh_count_from by (try assumption; lia).
  unfold windows. f_equal. lia.
Qed.

Lemma vbr_refresh_every_tenth_witness :
  refresh_count (fresh_session host0)
    (repeat (MPG123_OK, frame 128 MPG123_VBR) 21) = 3%nat.
Proof.
  rewrite (vbr_refresh_every_tenth (fresh_session host0)
             (repeat (MPG123_OK, frame 128 MPG123_VBR) 21)).
  - reflexivity.
  - repeat constructor; discriminate.
  - vm_compute. split; discriminate.
Defined.

(** X3: over a run of variable-bitrate frames the observation counter grows
    by exactly the number of refreshes, as long as it stays at most
    UINT_MAX/2. *)
Theorem mean_count_counts_refreshes :
  forall (frames : list (Z * mpg123_frameinfo)) (da : dec_audio),
    Forall frame_vbr frames ->
    0 <= mean_count (priv da) ->
    mean_count (priv da) + Z.of_nat (refresh_count da frames)
      <= C.UINT_MAX / 2 ->
    mean_count (priv (update_all da frames))
    = mean_count (priv da) + Z.of_nat (refresh_count da frames).
Proof.
  change (C.UINT_MAX / 2) with 2147483647.
  induction frames as [|[ret fi] rest IH]; intros da Hall H0 Hmax.
  - simpl. lia.
  - inversion Hall as [|x l [Hok Hv] Hrest]; subst.
    unfold info_ok in Hok. simpl in Hok, Hv. subst ret.
    simpl refresh_count in *. simpl update_all.
    destruct (Z.eqb_spec (vbr fi) MPG123_CBR) as [|_]; [contradiction|].
    cbn [negb andb Z.eqb MPG123_OK] in *.
    destruct (refresh_due (priv da)) eqn:Hr.
    + assert (Hc : mean_count (priv (update_info da MPG123_OK fi))
                   = mean_count (priv da) + 1).
      { rewrite (update_info_vbr _ _ Hv), Hr. simpl.
        destruct (next_count_step (mean_count (priv da))) as (_ & E & _).
        - change (C.UINT_MAX / 2) with 2147483647. lia.
        - rewrite E. change (C.UINT_MAX / 2) with 2147483647.
          destruct (Z.gtb_spec (mean_count (priv da) + 1) 2147483647);
            [lia | reflexivity]. }
      rewrite IH; try assumption; rewrite Hc; lia.
    + destruct (update_info_vbr_quiet da fi Hv Hr) as (_ & _ & _ & Hc).
      rewrite IH; try assumption; rewrite Hc; simpl; lia.
Qed.

Lemma mean_count_counts_refreshes_witness :
  mean_count
    (priv (update_all (fresh_session host0)
             (repeat (MPG123_OK, frame 128 MPG123_VBR) 21)))
  = 0 + Z.of_nat (refresh_count (fresh_session host0)
                    (repeat (MPG123_OK, frame 128 MPG123_VBR) 21)).
Proof.
  apply (mean_count_counts_refreshes
           (repeat (MPG123_OK, frame 128 MPG123_VBR) 21)
           (fresh_session host0)).
  - repeat constructor; discriminate.
  - vm_compute. discriminate.
  - vm_compute. discriminate.
Defined.

(** X4: [compute_bitrate] truncates.  On a frame of the table (version 1,
    2 or 2.5, layer 1 to 3, nothing overflowing) the result [b] is the
    integer quotient: spf * b <= (framesize + 4) * 8 * rate < spf * (b + 1).
    The 0.5 added afterwards never rounds up: [b] is the rounded quotient
    when the fractional part is below one half, and one less otherwise. *)
Theorem compute_bitrate_truncates :
  forall (fi : mpg123_frameinfo) (spf : Z),
    samples_per_frame_at (version fi) (layer fi) = Some spf ->
    0 < spf ->
    0 <= framesize fi -> (framesize fi + 4) * 8 <= C.INT_MAX ->
    0 <= rate fi ->
    let bits := (framesize fi + 4) * 8 * rate fi in
    bits < 2 ^ 63 ->
    bits / spf <= C.INT_MAX ->
    let b := compute_bitrate fi in
    spf * b <= bits < spf * (b + 1) /\
    analytic_bitrate (framesize fi) (rate fi) spf
    = b + (if 2 * (bits mod spf) <? spf then 0 else 1).
Proof.
  intros fi spf Ht Hs Hf Hi Hr bits Hl Hq b.
  assert (Eb : b = bits / spf)
    by (apply compute_bitrate_quotient; assumption).
  assert (Hn : 0 <= bits) by (unfold bits; nia).
  pose proof (Z.div_mod bits spf ltac:(lia)) as E.
  pose proof (Z.mod_pos_bound bits spf Hs) as B.
  rewrite Eb. split; [nia|].
  unfold analytic_bitrate, round_quotient. fold bits.
  destruct (Z.ltb_spec (2 * (bits mod spf)) spf).
  - rewrite Z.add_0_r. symmetry.
    apply (Z.div_unique _ _ _ (2 * (bits mod spf) + spf)); lia.
  - symmetry.
    apply (Z.div_unique _ _ _ (2 * (bits mod spf) - spf)); lia.
Qed.

Lemma compute_bitrate_truncates_witness :
  let fi := free_format_frame 2 in
  1152 * compute_bitrate fi <= (2 + 4) * 8 * 44100
    < 1152 * (compute_bitrate fi + 1) /\
  analytic_bitrate 2 44100 1152
  = compute_bitrate fi
    + (if 2 * ((2 + 4) * 8 * 44100 mod 1152) <? 1152 then 0 else 1).
Proof.
  apply (compute_bitrate_truncates (free_format_frame 2) 1152);
    try reflexivity; vm_compute; discriminate.
Defined.

(** * Further properties of [set_format] and [decode_packet] *)

Lemma set_format_keeps da r :
  estimator (snd (set_format da r)) = estimator da /\
  pts (snd (set_format da r)) = pts da /\
  pts_offset (snd (set_format da r)) = pts_offset da /\
  samples (decoded (snd (set_format da r))) = samples (decoded da) /\
  planes0 (decoded (snd (set_format da r))) = planes0 (decoded da) /\
  is_vbr (priv (snd (set_format da r))) = is_vbr (priv da).
Proof.
  unfold set_format.
  destruct (getformat_ret r =? MPG123_OK); [|repeat split].
  destruct (mpg123_format_to_af (fmt_encoding r)); repeat split.
Qed.

(** X5: [set_format] answers ok exactly when the format query did and the
    encoding is one of the four known.  A failed query changes nothing.  An
    unknown encoding gives [MPG123_ERR] after the channel count and the rate
    have been stored, with the sample format and [sample_size] left at their
    old values.  On success [sample_size] is channels times bytes per
    sample. *)
Theorem set_format_outcomes :
  forall (da : dec_audio) (r : mpg123_replies),
    let ret := fst (set_format da r) in
    let da' := snd (set_format da r) in
    (ret = MPG123_OK <->
     getformat_ret r = MPG123_OK /\
     mpg123_format_to_af (fmt_encoding r) <> None) /\
    (getformat_ret r <> MPG123_OK -> ret = getformat_ret r /\ da' = da) /\
    (getformat_ret r = MPG123_OK ->
     nch (decoded da') = fmt_channels r /\
     arate (decoded da') = C.to_int (fmt_rate r)) /\
    (getformat_ret r = MPG123_OK ->
     mpg123_format_to_af (fmt_encoding r) = None ->
     ret = MPG123_ERR /\
     format (decoded da') = format (decoded da) /\
     sample_size (priv da') = sample_size (priv da)) /\
    (forall af, getformat_ret r = MPG123_OK ->
     mpg123_format_to_af (fmt_encoding r) = Some af ->
     format (decoded da') = Some af /\
     sample_size (priv da') = C.to_int (fmt_channels r * af_fmt2bps af)).
Proof.
  intros da r. cbv zeta. unfold set_format.
  destruct (Z.eqb_spec (getformat_ret r) MPG123_OK) as [Hg|Hg].
  - destruct (mpg123_format_to_af (fmt_encoding r)) as [af|] eqn:Haf; simpl.
    + repeat split; try congruence; try tauto;
        try (intros af' _ E; congruence); try (intros _; discriminate).
    + repeat split; try congruence; try tauto; try discriminate;
        try (intros [_ H]; congruence).
  - simpl. repeat split; try tauto; try congruence.
Qed.

Lemma set_format_outcomes_witness :
  let r := {| feed_ret := MPG123_OK; decode_ret := MPG123_OK;
              decode_audio := 4096; decode_bytes := 4608;
              getformat_ret := MPG123_OK; fmt_rate := 48000;
              fmt_channels := 1; fmt_encoding := 0x60;
              info_ret := MPG123_OK; info_frame := frame 128 MPG123_CBR |} in
  let da := snd (decode_packet host0 (Some packet0)
                   (replies MPG123_OK MPG123_OK MPG123_OK 4608
                      (frame 128 MPG123_CBR))) in
  fst (set_format da r) = MPG123_ERR /\
  nch (decoded (snd (set_format da r))) = 1 /\
  format (decoded (snd (set_format da r))) = Some AF_FORMAT_S16 /\
  sample_size (priv (snd (set_format da r))) = 4.
Proof.
  cbv zeta.
  pose proof
    (set_format_outcomes
       (snd (decode_packet host0 (Some packet0)
               (replies MPG123_OK MPG123_OK MPG123_OK 4608
                  (frame 128 MPG123_CBR))))
       {| feed_ret := MPG123_OK; decode_ret := MPG123_OK;
          decode_audio := 4096; decode_bytes := 4608;
          getformat_ret := MPG123_OK; fmt_rate := 48000;
          fmt_channels := 1; fmt_encoding := 0x60;
          info_ret := MPG123_OK; info_frame := frame 128 MPG123_CBR |})
    as (_ & _ & H3 & H4 & _).
  destruct (H3 eq_refl) as (E1 & _).
  destruct (H4 eq_refl eq_refl) as (E2 & E3 & E4).
  rewrite E1, E2, E3, E4. repeat split.
Defined.

(** X6: [decode_packet] reports end of stream exactly when the demuxer had no
    packet, and success exactly when a packet was fed with success and the
    decode call either asked for more input or returned ok, done or
    new-format with a format query that succeeds, a known encoding and a
    sample size of at least 1. *)
Theorem decode_status :
  forall (da : dec_audio) (pkt : option demux_packet) (r : mpg123_replies),
    let st := fst (decode_packet da pkt r) in
    (st = AD_EOF <-> pkt = None) /\
    (st = AD_OK <->
     pkt <> None /\ feed_ret r = MPG123_OK /\
     (decode_ret r = MPG123_NEED_MORE \/
      ((decode_ret r = MPG123_OK \/ decode_ret r = MPG123_DONE \/
        decode_ret r = MPG123_NEW_FORMAT) /\
       getformat_ret r = MPG123_OK /\
       exists af, mpg123_format_to_af (fmt_encoding r) = Some af /\
                  1 <= C.to_int (fmt_channels r * af_fmt2bps af)))).
Proof.
  intros da [p|] r; cbv zeta.
  2:{ rewrite decode_packet_eof. simpl.
      split; split; try tauto; try discriminate. }
  pose proof (decode_packet_path da p r) as P.
  revert P. generalize (fst (decode_packet da (Some p) r))
                       (snd (decode_packet da (Some p) r)).
  intros st d' P.
  destruct P as
    [ Hf
    | Hf Hn
    | Hf Hn H1 H2 H3
    | da1 Hf Hn Hd Hbad Hest
    | af da1 Hf Hn Hd Hg Haf Hlt Hest
    | af da1 Hf Hn Hd Hg Haf Hss Hpos Hest Hsam Hpts ].
  all: split; [split; discriminate | split].
  - discriminate.
  - intros (_ & H & _). contradiction.
  - intros _. split; [discriminate | tauto].
  - reflexivity.
  - discriminate.
  - intros (_ & _ & [H | (H & _)]); [contradiction | tauto].
  - discriminate.
  - intros (_ & _ & [H | (_ & Hg & af & Haf & _)]); [contradiction|].
    destruct Hbad; congruence.
  - discriminate.
  - intros (_ & _ & [H | (_ & _ & af' & Haf' & Hge)]); [contradiction|].
    rewrite Haf in Haf'. injection Haf' as <-. lia.
  - intros _. split; [discriminate|]. split; [assumption|]. right.
    repeat split; try assumption. exists af. split; [assumption|].
    rewrite <- Hss. exact Hpos.
  - reflexivity.
Qed.

Lemma decode_status_witness :
  fst (decode_packet host0 None
         (replies MPG123_OK MPG123_OK MPG123_OK 4608 (frame 128 MPG123_CBR)))
  = AD_EOF /\
  fst (decode_packet host0 (Some packet0)
         (replies MPG123_OK MPG123_DONE MPG123_OK 0 (frame 128 MPG123_CBR)))
  = AD_OK.
Proof.
  split.
  - apply (proj1 (decode_status host0 None
                    (replies MPG123_OK MPG123_OK MPG123_OK 4608
                       (frame 128 MPG123_CBR)))).
    reflexivity.
  - apply (proj2 (decode_status host0 (Some packet0)
                    (replies MPG123_OK MPG123_DONE MPG123_OK 0
                       (frame 128 MPG123_CBR)))).
    split; [discriminate|]. split; [reflexivity|]. right.
    split; [right; left; reflexivity|]. split; [reflexivity|].
    exists AF_FORMAT_S16. split; [reflexivity | vm_compute; discriminate].
Defined.

(** The five ways through [decode_packet] once a packet is there, with the
    state each one ends in. *)
Lemma decode_packet_cases da p r :
  let d := entered da p in
  let f := set_format d r in
  (decode_packet da (Some p) r = (AD_ERR, d) /\ feed_ret r <> MPG123_OK) \/
  (decode_packet da (Some p) r = (AD_OK, d) /\
   feed_ret r = MPG123_OK /\ decode_ret r = MPG123_NEED_MORE) \/
  (decode_packet da (Some p) r = (AD_ERR, d) /\
   feed_ret r = MPG123_OK /\ decode_ret r <> MPG123_NEED_MORE /\
   ~ decode_good r) \/
  (decode_packet da (Some p) r = (AD_ERR, snd f) /\
   feed_ret r = MPG123_OK /\ decode_ret r <> MPG123_NEED_MORE /\
   decode_good r /\
   (fst f <> MPG123_OK \/ sample_size (priv (snd f)) < 1)) \/
  (decode_packet da (Some p) r
   = (AD_OK, update_info (deliver (snd f) r) (info_ret r) (info_frame r)) /\
   feed_ret r = MPG123_OK /\ decode_ret r <> MPG123_NEED_MORE /\
   decode_good r /\
   fst f = MPG123_OK /\ 1 <= sample_size (priv (snd f))).
Proof.
  cbv zeta. unfold decode_packet, decode_good, deliver.
  fold (entered da p). generalize (entered da p). intros d.
  destruct (Z.eqb_spec (feed_ret r) MPG123_OK) as [Hf|Hf]; cbn [negb];
    [|left; auto].
  destruct (Z.eqb_spec (decode_ret r) MPG123_NEED_MORE) as [Hn|Hn];
    [right; left; auto|].
  destruct (Z.eqb_spec (decode_ret r) MPG123_OK) as [H1|H1];
  destruct (Z.eqb_spec (decode_ret r) MPG123_DONE) as [H2|H2];
  destruct (Z.eqb_spec (decode_ret r) MPG123_NEW_FORMAT) as [H3|H3];
    cbn [negb andb];
    try (right; right; left; repeat split; auto; tauto).
  all: destruct (set_format d r) as [ret d1]; cbn [fst snd].
  all: destruct (Z.eqb_spec ret MPG123_OK) as [Hr|Hr]; cbn [negb];
    [| right; right; right; left; repeat split; auto; tauto].
  all: destruct (Z.ltb_spec (sample_size (priv d1)) 1) as [Hs|Hs];
    [ right; right; right; left; repeat split; auto; tauto
    | right; right; right; right; repeat split; auto; tauto ].
Qed.

Lemma deliver_keeps d r :
  estimator (deliver d r) = estimator d /\
  pts (deliver d r) = pts d /\
  priv (deliver d r) = priv d /\
  format (decoded (deliver d r)) = format (decoded d) /\
  nch (decoded (deliver d r)) = nch (decoded d) /\
  arate (decoded (deliver d r)) = arate (decoded d) /\
  planes0 (decoded (deliver d r)) = decode_audio r.
Proof. repeat split. Qed.

Lemma update_info_pts da ret fi : pts (update_info da ret fi) = pts da.
Proof.
  unfold update_info.
  destruct (ret =? MPG123_OK), (vbr fi =? MPG123_CBR),
    (refresh_due (priv da)); reflexivity.
Qed.

Lemma update_info_is_vbr da ret fi :
  is_vbr (priv (update_info da ret fi)) = is_vbr (priv da).
Proof.
  unfold update_info.
  destruct (ret =? MPG123_OK), (vbr fi =? MPG123_CBR),
    (refresh_due (priv da)); reflexivity.
Qed.

Lemma entered_keeps da p :
  pts (entered da p) = fst (pts_base da (Some p)) /\
  pts_offset (entered da p) = snd (pts_base da (Some p)) /\
  priv (entered da p) = priv da /\
  samples (decoded (entered da p)) = 0 /\
  planes0 (decoded (entered da p)) = 0 /\
  format (decoded (entered da p)) = format (decoded da) /\
  nch (decoded (entered da p)) = nch (decoded da) /\
  arate (decoded (entered da p)) = arate (decoded da).
Proof. unfold entered, pts_base. destruct (pkt_pts p); repeat split. Qed.

(** X7: the metadata query has no part in the result of [decode_packet]:
    whatever [mpg123_info] answers, the status, the output descriptor, the
    timestamp, the sample offset and [sample_size] are the same, so a failed
    query is never an error and never withholds decoded samples. *)
Theorem info_outcome_is_not_reported :
  forall (da : dec_audio) (pkt : option demux_packet) (r : mpg123_replies)
         (ret : Z) (fi : mpg123_frameinfo),
    let res := decode_packet da pkt r in
    let res' := decode_packet da pkt (with_info r ret fi) in
    fst res' = fst res /\
    decoded (snd res') = decoded (snd res) /\
    pts (snd res') = pts (snd res) /\
    pts_offset (snd res') = pts_offset (snd res) /\
    sample_size (priv (snd res')) = sample_size (priv (snd res)).
Proof.
  intros da [p|] r ret fi; cbv zeta; [|repeat split].
  assert (Ef : set_format (entered da p) (with_info r ret fi)
               = set_format (entered da p) r) by reflexivity.
  assert (Ed : forall d, deliver d (with_info r ret fi) = deliver d r)
    by reflexivity.
  destruct (decode_packet_cases da p r)
    as [(E & H) | [(E & H) | [(E & H) | [(E & H) | (E & H)]]]];
  destruct (decode_packet_cases da p (with_info r ret fi))
    as [(E' & H') | [(E' & H') | [(E' & H') | [(E' & H') | (E' & H')]]]];
  rewrite E, E'; rewrite ?Ef in *; cbn [fst snd];
    unfold decode_good in *; cbn [with_info feed_ret decode_ret] in *;
    try (exfalso; tauto); try (exfalso; lia); try (repeat split; fail).
  rewrite Ed, !update_info_decoded, !update_info_pts, !update_info_pts_offset,
    !update_info_sample_size.
  repeat split.
Qed.

(** X8: whenever [decode_packet] does not complete a frame (end of stream,
    any error, need more input) the output descriptor carries no data: the
    data pointer is null and the sample count is 0, given that
    [mp_audio_set_null_data] clears both. *)
Theorem no_data_unless_decoded :
  forall (da : dec_audio) (pkt : option demux_packet) (r : mpg123_replies),
    let res := decode_packet da pkt r in
    fst res <> AD_OK \/ decode_ret r = MPG123_NEED_MORE ->
    samples (decoded (snd res)) = 0 /\ planes0 (decoded (snd res)) = 0.
Proof.
  intros da [p|] r; cbv zeta; [|intros _; split; reflexivity].
  pose proof (entered_keeps da p) as (_ & _ & _ & S0 & P0 & _).
  pose proof (set_format_keeps (entered da p) r) as (_ & _ & _ & S1 & P1 & _).
  destruct (decode_packet_cases da p r)
    as [(E & H) | [(E & H) | [(E & H) | [(E & H) | (E & H)]]]];
    rewrite E; cbn [fst snd]; intros Hc.
  - auto.
  - auto.
  - auto.
  - rewrite S1, P1. auto.
  - exfalso. destruct Hc as [Hc | Hc]; [congruence | tauto].
Qed.

Lemma no_data_unless_decoded_witness :
  let res :=
    decode_packet
      (snd (decode_packet host0 (Some packet0)
              (replies MPG123_OK MPG123_OK MPG123_OK 4608
                 (frame 128 MPG123_CBR))))
      (Some packet0)
      (replies MPG123_OK MPG123_ERR MPG123_OK 4608 (frame 128 MPG123_CBR)) in
  samples (decoded (snd res)) = 0 /\ planes0 (decoded (snd res)) = 0.
Proof.
  apply (no_data_unless_decoded
           (snd (decode_packet host0 (Some packet0)
                   (replies MPG123_OK MPG123_OK MPG123_OK 4608
                      (frame 128 MPG123_CBR))))
           (Some packet0)
           (replies MPG123_OK MPG123_ERR MPG123_OK 4608
              (frame 128 MPG123_CBR))).
  left. discriminate.
Defined.

(** X9: a packet's timestamp is adopted before the feed, so it is the
    session's timestamp after the call on every path, errors included; a
    packet without one (and the end of stream) leaves the timestamp alone.
    On the paths that deliver no frame the sample offset is 0 when the
    packet had a timestamp and unchanged otherwise. *)
Theorem timestamp_adopted_on_every_path :
  forall (da : dec_audio) (pkt : option demux_packet) (r : mpg123_replies),
    let res := decode_packet da pkt r in
    pts (snd res) = fst (pts_base da pkt) /\
    (fst res <> AD_OK \/ decode_ret r = MPG123_NEED_MORE ->
     pts_offset (snd res) = snd (pts_base da pkt)).
Proof.
  intros da [p|] r; cbv zeta; [|split; reflexivity].
  pose proof (entered_keeps da p) as (T0 & O0 & _).
  pose proof (set_format_keeps (entered da p) r) as (_ & T1 & O1 & _).
  destruct (decode_packet_cases da p r)
    as [(E & H) | [(E & H) | [(E & H) | [(E & H) | (E & H)]]]];
    rewrite E; cbn [fst snd].
  - auto.
  - auto.
  - auto.
  - rewrite T1, O1. auto.
  - rewrite update_info_pts.
    destruct (deliver_keeps (snd (set_format (entered da p) r)) r)
      as (_ & T2 & _).
    rewrite T2, T1. split; [exact T0|].
    intros [Hc | Hc]; [congruence | tauto].
Qed.

Lemma timestamp_adopted_on_every_path_witness :
  let p := {| pkt_pts := Some (F64.of_Z 7); pkt_len := 418 |} in
  let res :=
    decode_packet
      (snd (decode_packet host0 (Some packet0)
              (replies MPG123_OK MPG123_OK MPG123_OK 4608
                 (frame 128 MPG123_CBR))))
      (Some p)
      (replies MPG123_ERR MPG123_OK MPG123_OK 4608 (frame 128 MPG123_CBR)) in
  pts (snd res) = F64.of_Z 7 /\ pts_offset (snd res) = 0.
Proof.
  cbv zeta.
  destruct (timestamp_adopted_on_every_path
              (snd (decode_packet host0 (Some packet0)
                      (replies MPG123_OK MPG123_OK MPG123_OK 4608
                         (frame 128 MPG123_CBR))))
              (Some {| pkt_pts := Some (F64.of_Z 7); pkt_len := 418 |})
              (replies MPG123_ERR MPG123_OK MPG123_OK 4608
                 (frame 128 MPG123_CBR)))
    as (E1 & E2).
  split; [exact E1 |]. apply E2. left. discriminate.
Defined.

Lemma set_format_ok da r :
  fst (set_format da r) = MPG123_OK ->
  getformat_ret r = MPG123_OK /\
  exists af,
    mpg123_format_to_af (fmt_encoding r) = Some af /\
    format (decoded (snd (set_format da r))) = Some af /\
    nch (decoded (snd (set_format da r))) = fmt_channels r /\
    arate (decoded (snd (set_format da r))) = C.to_int (fmt_rate r) /\
    sample_size (priv (snd (set_format da r)))
    = C.to_int (fmt_channels r * af_fmt2bps af).
Proof.
  unfold set_format.
  destruct (Z.eqb_spec (getformat_ret r) MPG123_OK) as [Hg|Hg];
    [|simpl; congruence].
  destruct (mpg123_format_to_af (fmt_encoding r)) as [af|]; simpl;
    [|discriminate].
  intros _. split; [assumption|]. exists af. repeat split.
Qed.

(** X10: after every call of [decode_packet] that delivers a frame, the
    output descriptor and the context agree with what the library reported:
    the sample format is the one the encoding maps to, the channel count and
    the rate are the reported ones, [sample_size] is channels times bytes
    per sample of that format and at least 1, and the data pointer is the
    library's buffer. *)
Theorem delivered_frame_is_described :
  forall (da da' : dec_audio) (pkt : option demux_packet)
         (r : mpg123_replies),
    decode_packet da pkt r = (AD_OK, da') ->
    decode_ret r <> MPG123_NEED_MORE ->
    exists af,
      mpg123_format_to_af (fmt_encoding r) = Some af /\
      format (decoded da') = Some af /\
      nch (decoded da') = fmt_channels r /\
      arate (decoded da') = C.to_int (fmt_rate r) /\
      sample_size (priv da') = C.to_int (nch (decoded da') * af_fmt2bps af) /\
      1 <= sample_size (priv da') /\
      planes0 (decoded da') = decode_audio r.
Proof.
  intros da da' [p|] r E Hn; [|discriminate].
  destruct (decode_packet_cases da p r)
    as [(E' & H) | [(E' & H) | [(E' & H) | [(E' & H) | (E' & H)]]]];
    rewrite E in E'; try discriminate.
  - tauto.
  - injection E' as ->. destruct H as (_ & _ & _ & Hok & Hpos).
    destruct (set_format_ok _ _ Hok) as (_ & af & Haf & F1 & F2 & F3 & F4).
    destruct (deliver_keeps (snd (set_format (entered da p) r)) r)
      as (_ & _ & D1 & D2 & D3 & D4 & D5).
    exists af. rewrite update_info_decoded, update_info_sample_size.
    rewrite D1, D2, D3, D4, D5, F1, F2, F3, F4.
    repeat split; try assumption. rewrite <- F4. exact Hpos.
Qed.

Lemma delivered_frame_is_described_witness :
  exists af,
    mpg123_format_to_af MPG123_ENC_SIGNED_16 = Some af /\
    format (decoded (snd (decode_packet host0 (Some packet0)
                            (replies MPG123_OK MPG123_OK MPG123_OK 4608
                               (frame 128 MPG123_CBR))))) = Some af.
Proof.
  destruct (delivered_frame_is_described host0
              (snd (decode_packet host0 (Some packet0)
                      (replies MPG123_OK MPG123_OK MPG123_OK 4608
                         (frame 128 MPG123_CBR))))
              (Some packet0)
              (replies MPG123_OK MPG123_OK MPG123_OK 4608
                 (frame 128 MPG123_CBR)) eq_refl)
    as (af & H1 & H2 & _).
  - discriminate.
  - exists af. split; [exact H1 | exact H2].
Defined.

(** X11: the decode outcomes done and new-format are handled exactly like
    ok: the same status and the same state come out, so the end of the
    track (done) is never the end-of-stream result, and a format change is
    not an event of its own for the host. *)
Theorem done_and_new_format_are_ok :
  forall (da : dec_audio) (pkt : option demux_packet) (r : mpg123_replies)
         (code : Z),
    code = MPG123_DONE \/ code = MPG123_NEW_FORMAT ->
    decode_packet da pkt (with_decode_ret r code)
    = decode_packet da pkt (with_decode_ret r MPG123_OK) /\
    (pkt <> None -> fst (decode_packet da pkt (with_decode_ret r code)) <> AD_EOF).
Proof.
  intros da [p|] r code Hc.
  2:{ split; [reflexivity | congruence]. }
  assert (E : decode_packet da (Some p) (with_decode_ret r code)
              = decode_packet da (Some p) (with_decode_ret r MPG123_OK)).
  { unfold decode_packet. cbn [with_decode_ret feed_ret decode_ret].
    destruct (feed_ret r =? MPG123_OK); cbn [negb]; [|reflexivity].
    destruct Hc as [-> | ->]; reflexivity. }
  split; [exact E|]. intros _. rewrite E.
  destruct (decode_packet_cases da p (with_decode_ret r MPG123_OK))
    as [(E' & H) | [(E' & H) | [(E' & H) | [(E' & H) | (E' & H)]]]];
    rewrite E'; discriminate.
Qed.

Lemma done_and_new_format_are_ok_witness :
  decode_packet host0 (Some packet0)
    (with_decode_ret
       (replies MPG123_OK MPG123_ERR MPG123_OK 0 (frame 128 MPG123_CBR))
       MPG123_DONE)
  = decode_packet host0 (Some packet0)
      (with_decode_ret
         (replies MPG123_OK MPG123_ERR MPG123_OK 0 (frame 128 MPG123_CBR))
         MPG123_OK).
Proof.
  apply (proj1 (done_and_new_format_are_ok host0 (Some packet0)
                  (replies MPG123_OK MPG123_ERR MPG123_OK 0
                     (frame 128 MPG123_CBR))
                  MPG123_DONE (or_introl eq_refl))).
Defined.

Lemma set_format_some da r af :
  getformat_ret r = MPG123_OK ->
  mpg123_format_to_af (fmt_encoding r) = Some af ->
  fst (set_format da r) = MPG123_OK /\
  sample_size (priv (snd (set_format da r)))
  = C.to_int (fmt_channels r * af_fmt2bps af).
Proof.
  intros Hg Haf. unfold set_format. rewrite Hg, Haf. split; reflexivity.
Qed.

Lemma decode_packet_delivers da p r :
  op_decodes_ok (Op_decode (Some p) r) ->
  decode_packet da (Some p) r
  = (AD_OK,
     update_info (deliver (snd (set_format (entered da p) r)) r)
       (info_ret r) (info_frame r)).
Proof.
  intros (Hf & Hd & Hg & af & Haf & Hs).
  destruct (set_format_some (entered da p) r af Hg Haf) as (F1 & F2).
  assert (Hn : decode_ret r <> MPG123_NEED_MORE)
    by (destruct Hd as [E | [E | E]]; rewrite E; discriminate).
  destruct (decode_packet_cases da p r)
    as [(E & H) | [(E & H) | [(E & H) | [(E & H) | (E & H)]]]].
  - tauto.
  - tauto.
  - unfold decode_good in H. tauto.
  - destruct H as (_ & _ & _ & [H | H]); [contradiction | lia].
  - exact E.
Qed.

Lemma sum_nonneg (l : list Z) :
  Forall (fun n => 0 <= n) l -> 0 <= fold_right Z.add 0 l.
Proof.
  induction 1 as [|x l Hx _ IH]; simpl; lia.
Qed.

(** X12: over any run of calls that each deliver a frame from a packet
    without timestamp, the sample offset grows by the sum of the sample
    counts attached and the timestamp stays, as long as the counts are not
    negative and the offset stays an [int]. *)
Theorem offset_accumulates :
  forall (ops : list operation) (da : dec_audio) (h : Z),
    Forall op_decodes_ok ops ->
    Forall op_untimed ops ->
    Forall (fun n => 0 <= n) (samples_of da h ops) ->
    C.INT_MIN <= pts_offset da ->
    pts_offset da + fold_right Z.add 0 (samples_of da h ops) <= C.INT_MAX ->
    pts_offset (fst (run da h ops))
    = pts_offset da + fold_right Z.add 0 (samples_of da h ops) /\
    pts (fst (run da h ops)) = pts da.
Proof.
  induction ops as [|o rest IH]; intros da h Hok Hun Hpos Hmin Hmax.
  - simpl. split; [lia | reflexivity].
  - inversion Hok as [|x l Ho Hrest]; subst.
    inversion Hun as [|x l Hu Hurest]; subst.
    destruct o as [[p|] r | cmd reopen]; try contradiction.
    simpl in Hu.
    cbn [run samples_of apply_operation fold_right fst] in *.
    rewrite (decode_packet_delivers da p r Ho) in *. cbn [snd] in *.
    set (d1 := update_info (deliver (snd (set_format (entered da p) r)) r)
                 (info_ret r) (info_frame r)) in *.
    inversion Hpos as [|n ns Hn Hns]; subst.
    pose proof (sum_nonneg _ Hns) as Hsum.
    assert (Es : samples (decoded d1)
                 = C.to_int
                     (C.to_size_t (decode_bytes r)
                      / C.to_size_t
                          (sample_size
                             (priv (snd (set_format (entered da p) r))))))
      by (unfold d1; rewrite update_info_decoded; reflexivity).
    assert (Eo : pts_offset d1 = pts_offset da + samples (decoded d1)).
    { rewrite Es. unfold d1. rewrite update_info_pts_offset.
      unfold deliver. cbn [pts_offset set_pts set_decoded].
      destruct (set_format_keeps (entered da p) r) as (_ & _ & O1 & _).
      destruct (entered_keeps da p) as (_ & O0 & _).
      rewrite O1, O0. unfold pts_base. rewrite Hu. cbn [snd].
      rewrite <- Es. apply to_int_id. lia. }
    assert (Et : pts d1 = pts da).
    { unfold d1. rewrite update_info_pts.
      destruct (deliver_keeps (snd (set_format (entered da p) r)) r)
        as (_ & T2 & _).
      destruct (set_format_keeps (entered da p) r) as (_ & T1 & _).
      destruct (entered_keeps da p) as (T0 & _).
      rewrite T2, T1, T0. unfold pts_base. rewrite Hu. reflexivity. }
    destruct (run d1 h rest) as [d2 ev2] eqn:Er.
    destruct (IH d1 h Hrest Hurest Hns) as (I1 & I2); try lia.
    rewrite Er in I1, I2. cbn [fst] in *. split; [lia | congruence].
Qed.

Lemma offset_accumulates_witness :
  let ops := [Op_decode (Some packet0)
                (replies MPG123_OK MPG123_OK MPG123_OK 4608
                   (frame 128 MPG123_VBR));
              Op_decode (Some packet0)
                (replies MPG123_OK MPG123_OK MPG123_OK 2304
                   (frame 160 MPG123_VBR))] in
  pts_offset (fst (run host0 9 ops)) = 0 + (1152 + (576 + 0)).
Proof.
  cbv zeta.
  destruct (offset_accumulates
              [Op_decode (Some packet0)
                 (replies MPG123_OK MPG123_OK MPG123_OK 4608
                    (frame 128 MPG123_VBR));
               Op_decode (Some packet0)
                 (replies MPG123_OK MPG123_OK MPG123_OK 2304
                    (frame 160 MPG123_VBR))]
              host0 9) as (E & _).
  - repeat constructor; try (exists AF_FORMAT_S16; split;
      [reflexivity | vm_compute; discriminate]).
  - repeat constructor.
  - vm_compute. repeat constructor; discriminate.
  - vm_compute. discriminate.
  - vm_compute. discriminate.
  - rewrite E. vm_compute. reflexivity.
Defined.

(** * The calls [decode_packet] makes *)

(** The events of a call, path by path. *)
Lemma decode_packet_events_cases da h p r :
  let ev := decode_packet_events da h (Some p) r in
  let st := fst (decode_packet da (Some p) r) in
  let start := [Ev_demux_read_packet; Ev_mpg123_feed h; Ev_talloc_free] in
  (st = AD_ERR /\ ev = start ++ [Ev_MP_ERR Msg_decoding_error]) \/
  (st = AD_OK /\ decode_ret r = MPG123_NEED_MORE /\
   ev = start ++ [Ev_mpg123_decode_frame h]) \/
  (st = AD_ERR /\
   ev = start ++ [Ev_mpg123_decode_frame h; Ev_MP_ERR Msg_decoding_error]) \/
  (st = AD_ERR /\
   ev = start ++ [Ev_mpg123_decode_frame h; Ev_mpg123_getformat h;
                  Ev_MP_ERR Msg_decoding_error]) \/
  (st = AD_ERR /\
   ev = start ++ [Ev_mpg123_decode_frame h; Ev_mpg123_getformat h;
                  Ev_MP_ERR Msg_bad_encoding; Ev_MP_ERR Msg_decoding_error]) \/
  (st = AD_ERR /\
   ev = start ++ [Ev_mpg123_decode_frame h; Ev_mpg123_getformat h;
                  Ev_MP_ERR Msg_no_sample_size]) \/
  (st = AD_OK /\ decode_ret r <> MPG123_NEED_MORE /\
   ev = start ++ [Ev_mpg123_decode_frame h; Ev_mpg123_getformat h;
                  Ev_mpg123_info h]).
Proof.
  cbv zeta. unfold decode_packet_events, decode_packet.
  fold (entered da p). generalize (entered da p). intros d.
  destruct (Z.eqb_spec (feed_ret r) MPG123_OK) as [Hf|Hf]; cbn [negb];
    [|left; split; reflexivity].
  destruct (Z.eqb_spec (decode_ret r) MPG123_NEED_MORE) as [Hn|Hn];
    [right; left; repeat split; assumption|].
  destruct (Z.eqb_spec (decode_ret r) MPG123_OK) as [H1|H1];
  destruct (Z.eqb_spec (decode_ret r) MPG123_DONE) as [H2|H2];
  destruct (Z.eqb_spec (decode_ret r) MPG123_NEW_FORMAT) as [H3|H3];
    cbn [negb andb];
    try (right; right; left; split; reflexivity).
  all: unfold set_format.
  all: destruct (Z.eqb_spec (getformat_ret r) MPG123_OK) as [Hg|Hg];
    [| destruct (Z.eqb_spec (getformat_ret r) MPG123_OK); [contradiction|];
       right; right; right; left; split; reflexivity ].
  all: destruct (mpg123_format_to_af (fmt_encoding r)) as [af|];
    [| right; right; right; right; left; split; reflexivity ].
  all: rewrite Hg; cbn [negb andb Z.eqb MPG123_OK fst snd app
                        priv set_priv sample_size set_sample_size].
  all: destruct (Z.ltb_spec (C.to_int (fmt_channels r * af_fmt2bps af)) 1);
    [ right; right; right; right; right; left; split; reflexivity
    | right; right; right; right; right; right; repeat split; assumption ].
Qed.

(** X13: every call of [decode_packet] asks the demuxer for exactly one
    packet and, when it gets one, frees it exactly once, right after the
    feed and on every path, errors included; nothing is freed at the end of
    the stream.  Every library call of the wrapper gets the handle of the
    context. *)
Theorem packet_freed_exactly_once :
  forall (da : dec_audio) (h : Z) (pkt : option demux_packet)
         (r : mpg123_replies),
    let ev := decode_packet_events da h pkt r in
    count is_read ev = 1%nat /\
    count is_free ev = match pkt with Some _ => 1%nat | None => 0%nat end /\
    (forall e h', In e ev -> handle_of e = Some h' -> h' = h) /\
    firstn 3 ev
    = match pkt with
      | Some _ => [Ev_demux_read_packet; Ev_mpg123_feed h; Ev_talloc_free]
      | None => [Ev_demux_read_packet]
      end.
Proof.
  intros da h [p|] r; cbv zeta.
  2:{ repeat split; try reflexivity.
      intros e h' [<- | []]. discriminate. }
  destruct (decode_packet_events_cases da h p r)
    as [(_ & E) | [(_ & _ & E) | [(_ & E) | [(_ & E) | [(_ & E) | [(_ & E)
       | (_ & _ & E)]]]]]]; rewrite E; repeat split;
    intros e h' Hin He; simpl in Hin;
    repeat (destruct Hin as [<- | Hin]; [simpl in He; congruence|]);
    contradiction.
Qed.

Lemma packet_freed_exactly_once_witness :
  count is_free
    (decode_packet_events host0 9 (Some packet0)
       (replies MPG123_ERR MPG123_OK MPG123_OK 0 (frame 128 MPG123_CBR)))
  = 1%nat /\
  9 = 9.
Proof.
  destruct (packet_freed_exactly_once host0 9 (Some packet0)
              (replies MPG123_ERR MPG123_OK MPG123_OK 0
                 (frame 128 MPG123_CBR)))
    as (_ & E & H & _).
  split; [exact E |].
  apply (H (Ev_mpg123_feed 9) 9); [right; left; reflexivity | reflexivity].
Defined.

(** X14: [decode_packet] logs an error message exactly when it returns the
    error result (one message, or two when the encoding is unknown), and it
    queries the frame's metadata exactly when it delivers a frame: never on
    an error, at the end of the stream or on need-more. *)
Theorem errors_are_logged :
  forall (da : dec_audio) (h : Z) (pkt : option demux_packet)
         (r : mpg123_replies),
    let ev := decode_packet_events da h pkt r in
    let st := fst (decode_packet da pkt r) in
    (st = AD_ERR <-> (1 <= count is_error_message ev)%nat) /\
    (count is_error_message ev <= 2)%nat /\
    (count is_info ev = 1%nat <->
     st = AD_OK /\ decode_ret r <> MPG123_NEED_MORE /\ pkt <> None) /\
    (count is_info ev <= 1)%nat.
Proof.
  intros da h [p|] r; cbv zeta.
  2:{ rewrite decode_packet_eof. cbn.
      repeat split; try lia; try discriminate.
      intros (_ & _ & H). now contradiction H. }
  destruct (decode_packet_events_cases da h p r)
    as [(S & E) | [(S & N & E) | [(S & E) | [(S & E) | [(S & E) | [(S & E)
       | (S & N & E)]]]]]]; rewrite E, S; cbn;
    repeat split; try lia; try discriminate; try congruence;
    try (intros (H & _); discriminate); try tauto.
Qed.

Lemma errors_are_logged_witness :
  fst (decode_packet host0 (Some packet0)
         {| feed_ret := MPG123_OK; decode_ret := MPG123_OK;
            decode_audio := 4096; decode_bytes := 4608;
            getformat_ret := MPG123_OK; fmt_rate := 44100;
            fmt_channels := 2; fmt_encoding := 0x60;
            info_ret := MPG123_OK; info_frame := frame 128 MPG123_CBR |})
  = AD_ERR.
Proof.
  apply (proj1 (errors_are_logged host0 9 (Some packet0)
                  {| feed_ret := MPG123_OK; decode_ret := MPG123_OK;
                     decode_audio := 4096; decode_bytes := 4608;
                     getformat_ret := MPG123_OK; fmt_rate := 44100;
                     fmt_channels := 2; fmt_encoding := 0x60;
                     info_ret := MPG123_OK;
                     info_frame := frame 128 MPG123_CBR |})).
  vm_compute. repeat constructor.
Defined.

(** * Session life cycle *)

(** X15: [init] returns 1 exactly when [mpg123_init] and [mpg123_open_feed]
    return ok and [mpg123_new] gives a handle, and 0 otherwise.  On success
    the context is all zero (no sample size, an empty running mean, delay
    counter 0), the handle is the one of [mpg123_new], the three settings
    were given before the feed was opened, and nothing was closed, deleted
    or logged. *)
Theorem init_succeeds_iff :
  forall (da : dec_audio) (r : init_replies),
    let i := init da r in
    (i_ret i = 1 <->
     init_ret r = MPG123_OK /\ new_handle r <> 0 /\
     open_feed_ret r = MPG123_OK) /\
    (i_ret i = 1 \/ i_ret i = 0) /\
    (i_ret i = 1 ->
     priv (i_da i) = zero_context /\
     i_handle i = new_handle r /\
     i_events i
     = [Ev_mpg123_init; Ev_talloc_zero; Ev_mpg123_new;
        Ev_mpg123_param (new_handle r) Add_flags_quiet;
        Ev_mpg123_param (new_handle r) Resync_limit_off;
        Ev_mpg123_param (new_handle r) Remove_flags_auto_resample;
        Ev_mpg123_open_feed (new_handle r)]).
Proof.
  intros da r. cbv zeta. unfold init.
  destruct (Z.eqb_spec (init_ret r) MPG123_OK) as [Hi|Hi]; cbn [negb].
  - destruct (Z.eqb_spec (new_handle r) 0) as [Hh|Hh].
    + cbn. repeat split; try discriminate; try tauto.
    + destruct (Z.eqb_spec (open_feed_ret r) MPG123_OK) as [Ho|Ho]; cbn.
      * repeat split; try tauto.
      * repeat split; try discriminate; try tauto.
  - cbn. repeat split; try discriminate; try tauto.
Qed.

Lemma init_succeeds_iff_witness :
  i_ret (init host0 {| init_ret := MPG123_OK; new_handle := 9;
                       open_feed_ret := MPG123_OK |}) = 1.
Proof.
  apply (proj1 (init_succeeds_iff host0
                  {| init_ret := MPG123_OK; new_handle := 9;
                     open_feed_ret := MPG123_OK |})).
  repeat split. discriminate.
Defined.

(** X16: a failed [init] cleans up after itself.  When [mpg123_init] itself
    fails nothing else is called and the session is untouched.  When a later
    step fails, one message is logged and [uninit] runs: the calls end with
    close, delete and exit on the handle of [mpg123_new], also when that
    handle is null; the feed is never opened on a null handle. *)
Theorem failed_init_cleans_up :
  forall (da : dec_audio) (r : init_replies),
    let i := init da r in
    i_ret i = 0 ->
    (init_ret r <> MPG123_OK ->
     i_events i = [Ev_mpg123_init] /\ i_da i = da) /\
    (init_ret r = MPG123_OK ->
     exists before,
       i_events i = before ++ uninit (new_handle r) /\
       count is_error_message before = 1%nat /\
       count is_exit before = 0%nat /\
       count is_delete before = 0%nat /\
       (new_handle r = 0 ->
        ~ In (Ev_mpg123_open_feed 0) (i_events i))).
Proof.
  intros da r. cbv zeta. unfold init.
  destruct (Z.eqb_spec (init_ret r) MPG123_OK) as [Hi|Hi]; cbn [negb].
  - destruct (Z.eqb_spec (new_handle r) 0) as [Hh|Hh].
    + cbn [i_ret i_events i_da]. intros _. split; [tauto|]. intros _.
      exists [Ev_mpg123_init; Ev_talloc_zero; Ev_mpg123_new;
              Ev_MP_ERR Msg_preinit_plain].
      repeat split. intros _ Hin. rewrite Hh in Hin. cbn in Hin.
      repeat (destruct Hin as [Hin | Hin]; [discriminate|]). exact Hin.
    + destruct (Z.eqb_spec (open_feed_ret r) MPG123_OK) as [Ho|Ho];
        cbn [negb i_ret i_events i_da]; [discriminate|].
      intros _. split; [tauto|]. intros _.
      exists [Ev_mpg123_init; Ev_talloc_zero; Ev_mpg123_new;
              Ev_mpg123_param (new_handle r) Add_flags_quiet;
              Ev_mpg123_param (new_handle r) Resync_limit_off;
              Ev_mpg123_param (new_handle r) Remove_flags_auto_resample;
              Ev_mpg123_open_feed (new_handle r);
              Ev_MP_ERR Msg_preinit].
      repeat split. intros H0. contradiction.
  - cbn [i_ret i_events i_da]. intros _. split; [auto | tauto].
Qed.

Lemma failed_init_cleans_up_witness :
  exists before,
    i_events (init host0 {| init_ret := MPG123_OK; new_handle := 0;
                            open_feed_ret := MPG123_OK |})
    = before ++ uninit 0.
Proof.
  destruct (proj2 (failed_init_cleans_up host0
                     {| init_ret := MPG123_OK; new_handle := 0;
                        open_feed_ret := MPG123_OK |} eq_refl) eq_refl)
    as (before & E & _).
  exists before. exact E.
Defined.

(** X17: [control].  A reset clears the output data, closes the feed and
    opens it again, and is true exactly when the reopening returns ok; it
    leaves the bitrate estimator (running mean, counter, delay, shown
    bitrate), the format, [sample_size] and the timestamp as they were, so
    the estimate carries over a seek.  Any other command is unknown: no
    call is made and nothing changes. *)
Theorem control_reset_keeps_estimate :
  forall (da : dec_audio) (h : Z) (cmd : ad_command) (reopen : Z),
    let st := fst (fst (control da h cmd reopen)) in
    let da' := snd (fst (control da h cmd reopen)) in
    let ev := snd (control da h cmd reopen) in
    estimator da' = estimator da /\
    priv da' = priv da /\
    pts da' = pts da /\ pts_offset da' = pts_offset da /\
    format (decoded da') = format (decoded da) /\
    (cmd = ADCTRL_RESET ->
     (st = CONTROL_TRUE <-> reopen = MPG123_OK) /\
     (st = CONTROL_FALSE <-> reopen <> MPG123_OK) /\
     samples (decoded da') = 0 /\ planes0 (decoded da') = 0 /\
     firstn 2 ev = [Ev_mpg123_close h; Ev_mpg123_open_feed h] /\
     (count is_error_message ev = 1%nat <-> reopen <> MPG123_OK)) /\
    (cmd <> ADCTRL_RESET ->
     st = CONTROL_UNKNOWN /\ da' = da /\ ev = []).
Proof.
  intros da h [|n] reopen; cbv zeta; unfold control.
  - destruct (Z.eqb_spec reopen MPG123_OK) as [Ho|Ho]; cbn;
      repeat split; try tauto; try discriminate; try congruence;
      try (intros _; assumption); try (intros _; discriminate).
  - cbn. repeat split; try discriminate; intros H; congruence.
Qed.

Lemma control_reset_keeps_estimate_witness :
  let da := update_all host0 [(MPG123_OK, frame 128 MPG123_VBR)] in
  estimator (snd (fst (control da 9 ADCTRL_RESET MPG123_OK))) = estimator da /\
  fst (fst (control da 9 ADCTRL_RESET MPG123_OK)) = CONTROL_TRUE.
Proof.
  cbv zeta.
  destruct (control_reset_keeps_estimate
              (update_all host0 [(MPG123_OK, frame 128 MPG123_VBR)])
              9 ADCTRL_RESET MPG123_OK)
    as (E & _ & _ & _ & _ & R & _).
  split; [exact E|]. apply (proj1 (R eq_refl)). reflexivity.
Defined.

Lemma decode_packet_invariant da pkt r (P : ad_mpg123_context -> Prop) :
  (forall c n, P c -> P (set_sample_size c n)) ->
  (forall d ret fi, P (priv d) -> P (priv (update_info d ret fi))) ->
  P (priv da) -> P (priv (snd (decode_packet da pkt r))).
Proof.
  intros Hss Hup H. destruct pkt as [p|]; [|exact H].
  destruct (entered_keeps da p) as (_ & _ & E0 & _).
  assert (Hf : P (priv (snd (set_format (entered da p) r)))).
  { unfold set_format.
    destruct (getformat_ret r =? MPG123_OK);
      [|cbn [snd]; rewrite E0; exact H].
    destruct (mpg123_format_to_af (fmt_encoding r));
      cbn [snd priv set_priv set_decoded].
    - apply Hss. rewrite E0. exact H.
    - rewrite E0. exact H. }
  destruct (decode_packet_cases da p r)
    as [(E & _) | [(E & _) | [(E & _) | [(E & _) | (E & _)]]]];
    rewrite E; cbn [snd]; try (rewrite E0; exact H); try exact Hf.
  apply Hup. exact Hf.
Qed.

Lemma apply_operation_invariant da h o (P : ad_mpg123_context -> Prop) :
  (forall c n, P c -> P (set_sample_size c n)) ->
  (forall d ret fi, P (priv d) -> P (priv (update_info d ret fi))) ->
  P (priv da) -> P (priv (fst (apply_operation da h o))).
Proof.
  intros Hss Hup H. destruct o as [pkt r | cmd reopen]; cbn [apply_operation fst].
  - apply decode_packet_invariant; assumption.
  - unfold control. destruct cmd; [|exact H].
    destruct (negb (reopen =? MPG123_OK)); exact H.
Qed.

Lemma run_invariant ops (P : ad_mpg123_context -> Prop) :
  (forall c n, P c -> P (set_sample_size c n)) ->
  (forall d ret fi, P (priv d) -> P (priv (update_info d ret fi))) ->
  forall da h, P (priv da) -> P (priv (fst (run da h ops))).
Proof.
  intros Hss Hup. induction ops as [|o rest IH]; intros da h H; [exact H|].
  cbn [run].
  pose proof (apply_operation_invariant da h o P Hss Hup H) as H1.
  destruct (apply_operation da h o) as [d1 e1]. cbn [fst] in H1.
  specialize (IH d1 h H1). destruct (run d1 h rest) as [d2 e2]. exact IH.
Qed.

(** X18: in every state an open session can reach, that is after a
    successful [init] and any sequence of [decode_packet] and [control]
    calls, whatever the library answers: the observation counter is at most
    UINT_MAX/2, the delay counter is between 0 and 10, and the context's
    VBR flag is still 0, because no function of the wrapper ever writes
    it. *)
Theorem session_invariants :
  forall (da : dec_audio) (r : init_replies) (ops : list operation),
    let i := init da r in
    i_ret i = 1 ->
    let d := fst (run (i_da i) (i_handle i) ops) in
    0 <= mean_count (priv d) <= C.UINT_MAX / 2 /\
    0 <= delay (priv d) <= 10 /\
    is_vbr (priv d) = 0.
Proof.
  intros da r ops i Hret d.
  assert (Hz : priv (i_da i) = zero_context).
  { unfold i, init in *.
    destruct (negb (init_ret r =? MPG123_OK)); [discriminate|].
    destruct (new_handle r =? 0); [discriminate|].
    destruct (negb (open_feed_ret r =? MPG123_OK)); [discriminate|].
    reflexivity. }
  unfold d.
  apply (run_invariant ops
           (fun c => 0 <= mean_count c <= C.UINT_MAX / 2 /\
                     0 <= delay c <= 10 /\ is_vbr c = 0)).
  - intros c n H. exact H.
  - intros d0 ret fi (H1 & H2 & H3). split; [|split].
    + apply update_info_count_bound, H1.
    + apply update_info_delay_bound, H2.
    + rewrite update_info_is_vbr. exact H3.
  - rewrite Hz. change (C.UINT_MAX / 2) with 2147483647. cbn. lia.
Qed.

Lemma session_invariants_witness :
  let d := fst (run (i_da (init host0 {| init_ret := MPG123_OK;
                                         new_handle := 9;
                                         open_feed_ret := MPG123_OK |}))
                  9
                  [Op_decode (Some packet0)
                     (replies MPG123_OK MPG123_OK MPG123_OK 4608
                        (frame 128 MPG123_VBR));
                   Op_control ADCTRL_RESET MPG123_OK]) in
  0 <= mean_count (priv d) <= C.UINT_MAX / 2 /\
  0 <= delay (priv d) <= 10 /\
  is_vbr (priv d) = 0.
Proof.
  apply (session_invariants host0
           {| init_ret := MPG123_OK; new_handle := 9;
              open_feed_ret := MPG123_OK |}
           [Op_decode (Some packet0)
              (replies MPG123_OK MPG123_OK MPG123_OK 4608
                 (frame 128 MPG123_VBR));
            Op_control ADCTRL_RESET MPG123_OK]).
  reflexivity.
Defined.

Lemma count_app (f : event -> bool) (a b : list event) :
  count f (a ++ b) = (count f a + count f b)%nat.
Proof. unfold count. rewrite filter_app, length_app. reflexivity. Qed.


Lemma apply_operation_within da h o :
  Forall (within_session h) (snd (apply_operation da h o)).
Proof.
  assert (K : forall l,
             (forall e, In e l -> within_session h e) ->
             Forall (within_session h) l)
    by (intros l; apply Forall_forall).
  destruct o as [[p|] r | cmd reopen]; cbn [apply_operation snd].
  - destruct (decode_packet_events_cases da h p r)
      as [(_ & E) | [(_ & _ & E) | [(_ & E) | [(_ & E) | [(_ & E) | [(_ & E)
         | (_ & _ & E)]]]]]]; rewrite E; apply K; intros e Hin;
      cbn [In app] in Hin;
      repeat (destruct Hin as [<- | Hin];
              [repeat split; intros h' E'; cbn in E'; congruence|]);
      contradiction.
  - apply K. intros e [<- | []]. repeat split. intros h' E'. discriminate.
  - unfold control. destruct cmd; [|constructor].
    destruct (negb (reopen =? MPG123_OK)); cbn [snd]; apply K; intros e Hin;
      cbn [In app] in Hin;
      repeat (destruct Hin as [<- | Hin];
              [repeat split; intros h' E'; cbn in E'; congruence|]);
      contradiction.
Qed.

Lemma run_within ops : forall da h,
  Forall (within_session h) (snd (run da h ops)).
Proof.
  induction ops as [|o rest IH]; intros da h; [constructor|].
  cbn [run]. pose proof (apply_operation_within da h o) as H1.
  destruct (apply_operation da h o) as [d1 e1].
  specialize (IH d1 h). destruct (run d1 h rest) as [d2 e2].
  cbn [snd] in *. apply Forall_app. split; assumption.
Qed.

Lemma within_counts h l :
  Forall (within_session h) l ->
  count is_init l = 0%nat /\ count is_exit l = 0%nat /\
  count is_new l = 0%nat /\ count is_delete l = 0%nat.
Proof.
  unfold count. induction 1 as [|e l (H1 & H2 & H3 & H4 & _) _ IH]; cbn.
  - repeat split.
  - rewrite H1, H2, H3, H4. exact IH.
Qed.

(** X19: over a whole session ([init], then if it succeeded any calls of
    [decode_packet] and [control] and at last [uninit]) the library is
    brought up once, it is brought down exactly once if [mpg123_init]
    succeeded and never otherwise, a handle is deleted exactly as often as
    one was made, the exit is the last call, and every call that takes a
    handle gets the one [mpg123_new] returned. *)
Theorem session_is_balanced :
  forall (da : dec_audio) (r : init_replies) (ops : list operation),
    let t := session da r ops in
    count is_init t = 1%nat /\
    count is_exit t = (if init_ret r =? MPG123_OK then 1%nat else 0%nat) /\
    count is_new t = count is_delete t /\
    (exists t', t = t' ++ [if init_ret r =? MPG123_OK
                           then Ev_mpg123_exit else Ev_mpg123_init]) /\
    (forall e h, In e t -> handle_of e = Some h -> h = new_handle r).
Proof.
  intros da r ops. cbv zeta. unfold session, init.
  destruct (Z.eqb_spec (init_ret r) MPG123_OK) as [Hi|Hi]; cbn [negb].
  2:{ cbn. repeat split.
      - exists []. reflexivity.
      - intros e h [<- | []]. discriminate. }
  destruct (Z.eqb_spec (new_handle r) 0) as [Hh|Hh].
  { cbn. repeat split.
    - exists [Ev_mpg123_init; Ev_talloc_zero; Ev_mpg123_new;
              Ev_MP_ERR Msg_preinit_plain;
              Ev_mpg123_close (new_handle r);
              Ev_mpg123_delete (new_handle r)]. reflexivity.
    - intros e h Hin He.
      repeat (destruct Hin as [<- | Hin]; [cbn in He; congruence|]).
      contradiction. }
  destruct (Z.eqb_spec (open_feed_ret r) MPG123_OK) as [Ho|Ho];
    cbn [negb i_ret i_events i_da i_handle Z.eqb].
  2:{ cbn. repeat split.
      - exists [Ev_mpg123_init; Ev_talloc_zero; Ev_mpg123_new;
                Ev_mpg123_param (new_handle r) Add_flags_quiet;
                Ev_mpg123_param (new_handle r) Resync_limit_off;
                Ev_mpg123_param (new_handle r) Remove_flags_auto_resample;
                Ev_mpg123_open_feed (new_handle r);
                Ev_MP_ERR Msg_preinit;
                Ev_mpg123_close (new_handle r);
                Ev_mpg123_delete (new_handle r)]. reflexivity.
      - intros e h Hin He.
        repeat (destruct Hin as [<- | Hin]; [cbn in He; congruence|]).
        contradiction. }
  pose proof (run_within ops (set_priv da zero_context) (new_handle r)) as W.
  destruct (within_counts _ _ W) as (C1 & C2 & C3 & C4).
  set (mid := snd (run (set_priv da zero_context) (new_handle r) ops)) in *.
  change ((1 =? 1)%positive) with true. cbv iota.
  rewrite !count_app, C1, C2, C3, C4. repeat split.
  - exists (([Ev_mpg123_init; Ev_talloc_zero; Ev_mpg123_new] ++
             [Ev_mpg123_param (new_handle r) Add_flags_quiet;
              Ev_mpg123_param (new_handle r) Resync_limit_off;
              Ev_mpg123_param (new_handle r) Remove_flags_auto_resample;
              Ev_mpg123_open_feed (new_handle r)]) ++
            mid ++ [Ev_mpg123_close (new_handle r);
                    Ev_mpg123_delete (new_handle r)]).
    unfold uninit. rewrite <- !app_assoc. reflexivity.
  - intros e h Hin He. apply in_app_or in Hin. destruct Hin as [Hin | Hin].
    + cbn in Hin.
      repeat (destruct Hin as [<- | Hin]; [cbn in He; congruence|]).
      contradiction.
    + apply in_app_or in Hin. destruct Hin as [Hin | Hin].
      * rewrite Forall_forall in W. destruct (W e Hin) as (_ & _ & _ & _ & Hh').
        apply Hh', He.
      * cbn in Hin.
        repeat (destruct Hin as [<- | Hin]; [cbn in He; congruence|]).
        contradiction.
Qed.

Lemma session_is_balanced_witness :
  let t := session host0 {| init_ret := MPG123_OK; new_handle := 9;
                            open_feed_ret := MPG123_OK |}
             [Op_decode (Some packet0)
                (replies MPG123_OK MPG123_OK MPG123_OK 4608
                   (frame 128 MPG123_VBR));
              Op_control ADCTRL_RESET MPG123_ERR;
              Op_decode None
                (replies MPG123_OK MPG123_OK MPG123_OK 0
                   (frame 128 MPG123_VBR))] in
  count is_exit t = 1%nat /\ 9 = 9.
Proof.
  cbv zeta.
  destruct (session_is_balanced host0
              {| init_ret := MPG123_OK; new_handle := 9;
                 open_feed_ret := MPG123_OK |}
              [Op_decode (Some packet0)
                 (replies MPG123_OK MPG123_OK MPG123_OK 4608
                    (frame 128 MPG123_VBR));
               Op_control ADCTRL_RESET MPG123_ERR;
               Op_decode None
                 (replies MPG123_OK MPG123_OK MPG123_OK 0
                    (frame 128 MPG123_VBR))])
    as (_ & E & _ & _ & H).
  split; [exact E |].
  apply (H (Ev_mpg123_param 9 Add_flags_quiet) 9); [|reflexivity].
  vm_compute. do 3 right. left. reflexivity.
Defined.

(** * The first refresh of the running mean *)

Lemma fexp32 (e : Z) : -125 <= e -> fexp F32.prec F32.emax e = e - 24.
Proof. intros H. unfold fexp, emin, F32.prec, F32.emax. lia. Qed.

(** A [float] mantissa that is a 24-bit one shifted left by [n] rounds to
    it, exactly. *)
Lemma binary_round_aux_exact32 (s : bool) (m0 m : positive) (n e : Z) :
  Zpos (digits2_pos m0) = 24 ->
  0 <= n ->
  Zpos m = Zpos m0 * 2 ^ n ->
  -149 <= e + n <= 104 ->
  binary_round_aux F32.prec F32.emax s (Zpos m) e loc_Exact
  = S754_finite s m0 (e + n).
Proof.
  intros Hd Hn Hm He.
  assert (Hdm : Zpos (digits2_pos m) = 24 + n).
  { apply digits2_pos_unique. rewrite Hm.
    pose proof (digits2_pos_bounds m0) as B. rewrite Hd in B.
    replace (24 + n - 1) with (23 + n) by lia.
    rewrite !Z.pow_add_r by lia.
    change (2 ^ (24 - 1)) with (2 ^ 23) in B.
    assert (0 < 2 ^ n) by (apply Z.pow_pos_nonneg; lia). nia. }
  unfold binary_round_aux, shr_fexp.
  cbn [Zdigits2 shr_record_of_loc]. rewrite Hdm.
  rewrite fexp32 by lia.
  replace (24 + n + e - 24 - e) with n by lia.
  destruct n as [|n|n]; [| |lia].
  - assert (m = m0) by lia. subst m.
    cbn [shr shr_m loc_of_shr_record round_nearest_even Zdigits2].
    rewrite Hd, fexp32 by lia.
    replace (24 + e - 24 - e) with 0 by lia.
    cbn [shr shr_m]. rewrite Z.add_0_r.
    unfold F32.emax, F32.prec.
    destruct (Z.leb_spec e (128 - 24)); [reflexivity | lia].
  - assert (m = Pos.iter xO m0 n).
    { apply Pos2Z.inj. rewrite iter_xO_value. exact Hm. }
    subst m. cbn [shr]. rewrite iter_shr_1_exact.
    cbn [shr_m loc_of_shr_record round_nearest_even Zdigits2].
    rewrite Hd, fexp32 by lia.
    replace (24 + (e + Z.pos n) - 24 - (e + Z.pos n)) with 0 by lia.
    cbn [shr shr_m].
    unfold F32.emax, F32.prec.
    destruct (Z.leb_spec (e + Z.pos n) (128 - 24)); [reflexivity | lia].
Qed.

(** The [float] of a positive integer of at most 24 bits: the integer
    itself, on a 24-bit mantissa. *)
Lemma of_Z32_pos (p : positive) :
  let k := 24 - Zpos (digits2_pos p) in
  0 <= k ->
  exists m0 : positive,
    Zpos m0 = Zpos p * 2 ^ k /\
    Zpos (digits2_pos m0) = 24 /\
    F32.of_Z (Zpos p) = S754_finite false m0 (- k).
Proof.
  intros k Hk.
  pose proof (digits2_pos_bounds p) as B.
  assert (Hd : Zpos (digits2_pos p) = 24 - k) by (unfold k; lia).
  unfold F32.of_Z, binary_normalize, binary_round.
  rewrite Z.add_0_r, Hd, fexp32 by lia.
  destruct k as [|kp|kp] eqn:Ek; try lia.
  - exists p. rewrite shl_align_up by lia.
    change (2 ^ 0) with 1. repeat split; [lia | lia |].
    rewrite (binary_round_aux_exact32 false p p 0 0);
      [reflexivity | lia | lia | change (2 ^ 0) with 1; lia | lia].
  - exists (Pos.iter xO p kp).
    assert (Hv : Zpos (Pos.iter xO p kp) = Zpos p * 2 ^ Zpos kp)
      by apply iter_xO_value.
    assert (Hd0 : Zpos (digits2_pos (Pos.iter xO p kp)) = 24).
    { apply digits2_pos_unique. rewrite Hv. rewrite Hd in B.
      replace (24 - Z.pos kp - 1) with (23 - Z.pos kp) in B by lia.
      assert (E1 : 2 ^ 24 = 2 ^ (24 - Z.pos kp) * 2 ^ Z.pos kp)
        by (rewrite <- Z.pow_add_r by lia; f_equal; lia).
      assert (E2 : 2 ^ (24 - 1) = 2 ^ (23 - Z.pos kp) * 2 ^ Z.pos kp)
        by (rewrite <- Z.pow_add_r by lia; f_equal; lia).
      rewrite E1, E2.
      assert (0 < 2 ^ Z.pos kp) by (apply Z.pow_pos_nonneg; lia). nia. }
    repeat split; try assumption.
    rewrite (shl_align_down p kp 0 (24 - Z.pos kp - 24)) by lia.
    rewrite (binary_round_aux_exact32 false (Pos.iter xO p kp) _ 0
               (24 - Z.pos kp - 24));
      [ f_equal; lia | assumption | lia | change (2 ^ 0) with 1; lia | lia ].
Qed.

(** Dividing a [float] by 1.0f gives it back. *)
Lemma div_by_one32 (m0 : positive) (e : Z) :
  Zpos (digits2_pos m0) = 24 ->
  -148 <= e <= 104 ->
  F32.div (S754_finite false m0 e) (F32.of_Z 1) = S754_finite false m0 e.
Proof.
  intros Hd He.
  change (F32.of_Z 1) with (S754_finite false 8388608 (-23)).
  unfold F32.div, SFdiv, SFdiv_core_binary.
  cbn [Zdigits2]. rewrite Hd.
  change (Z.pos (digits2_pos 8388608)) with 24.
  replace (24 + e - (24 + -23)) with (e + 23) by lia.
  rewrite fexp32 by lia.
  replace (Z.min (e + 23 - 24) (e - -23)) with (e - 1) by lia.
  replace (e - -23 - (e - 1)) with 24 by lia.
  assert (Ediv : Z.div_eucl (Z.shiftl (Z.pos m0) 24) 8388608
                 = (Zpos (m0~0), 0)).
  { pose proof (Z.div_eucl_eq (Z.shiftl (Z.pos m0) 24) 8388608
                  ltac:(discriminate)) as E.
    pose proof (Z.mod_pos_bound (Z.shiftl (Z.pos m0) 24) 8388608 eq_refl) as B.
    unfold Z.modulo in B.
    destruct (Z.div_eucl (Z.shiftl (Z.pos m0) 24) 8388608) as [q r].
    rewrite Z.shiftl_mul_pow2 in E by lia.
    change (2 ^ 24) with 16777216 in E.
    assert (q = Zpos (m0~0)) by lia. assert (r = 0) by lia.
    subst. reflexivity. }
  rewrite Ediv.
  change (new_location 8388608 0) with loc_Exact.
  cbn [xorb].
  rewrite (binary_round_aux_exact32 false m0 (m0~0) 1 (e - 1));
    [f_equal; lia | assumption | lia | change (2 ^ 1) with 2; lia | lia].
Qed.

(** Promoting the [float] of an integer of at most 24 bits gives the
    [double] of that integer. *)
Lemma of_float_of_Z32 (p : positive) :
  Zpos (digits2_pos p) <= 24 ->
  F64.of_float (F32.of_Z (Zpos p)) = F64.of_Z (Zpos p).
Proof.
  intros Hd.
  destruct (of_Z32_pos p) as (m0 & Hm0 & Hd0 & ->); [lia|].
  destruct (of_Z_pos p) as (m1 & Hm1 & Hd1 & ->); [lia|].
  set (k := 24 - Zpos (digits2_pos p)) in *.
  assert (Pk : 2 ^ (53 - Zpos (digits2_pos p)) = 2 ^ k * 2 ^ 29)
    by (rewrite <- Z.pow_add_r by lia; f_equal; lia).
  unfold F64.of_float. cbn [cond_Zopp].
  unfold binary_normalize, binary_round.
  rewrite Hd0, fexp64 by lia.
  rewrite (shl_align_down m0 29 (- k) (24 + - k - 53)) by lia.
  rewrite (binary_round_aux_exact false (Pos.iter xO m0 29) _ 0
             (24 + - k - 53)).
  - f_equal.
    + apply Pos2Z.inj. rewrite iter_xO_value, Hm0, Hm1, Pk. ring.
    + lia.
  - apply digits2_pos_unique. rewrite iter_xO_value.
    pose proof (digits2_pos_bounds m0) as B. rewrite Hd0 in B.
    change (2 ^ (24 - 1)) with 8388608 in B.
    change (2 ^ 24) with 16777216 in B.
    change (2 ^ (53 - 1)) with (8388608 * 2 ^ 29).
    change (2 ^ 53) with (16777216 * 2 ^ 29).
    change (2 ^ Z.pos 29) with (2 ^ 29).
    assert (0 < 2 ^ 29) by reflexivity. nia.
  - lia.
  - change (2 ^ 0) with 1. lia.
  - lia.
Qed.

(** The mean and the shown value of a first refresh: [(0 * 0 + b) / 1] is
    [b], for a bitrate [b] of at most 24 bits. *)
Lemma first_mean_exact (b : Z) :
  0 <= b < 2 ^ 24 ->
  next_mean 1 F32.zero b = F32.of_Z b /\
  F64.to_int (F64.add (F64.of_float (F32.of_Z b)) F64.half) = b.
Proof.
  intros Hb. destruct b as [|p|p]; [split; reflexivity | | lia].
  assert (Hd : Zpos (digits2_pos p) <= 24).
  { pose proof (digits2_pos_bounds p) as [B _].
    assert (Zpos (digits2_pos p) - 1 < 24)
      by (apply (Z.pow_lt_mono_r_iff 2); lia).
    lia. }
  split.
  - unfold next_mean.
    change (F32.mul (F32.of_Z (C.to_uint (1 - 1))) F32.zero) with F32.zero.
    destruct (of_Z32_pos p) as (m0 & Hm0 & Hd0 & E); [lia|].
    rewrite E. change (F32.add F32.zero (S754_finite false m0
                         (- (24 - Z.pos (digits2_pos p)))))
      with (S754_finite false m0 (- (24 - Z.pos (digits2_pos p)))).
    apply div_by_one32; [assumption | lia].
  - rewrite of_float_of_Z32 by assumption.
    apply (cast_add_half (Zpos p)). unfold C.INT_MAX.
    change (2 ^ 24) with 16777216 in Hb. lia.
Qed.

(** X20: in a fresh session and right after a constant-bitrate frame (counter
    0, mean 0, delay counter 0 or 1) the first variable-bitrate frame shows
    exactly its own reported bitrate: the running mean starts at that
    bitrate, in [float] arithmetic and without rounding error for every
    bitrate below 2^24 bits per second, and the counter becomes 1. *)
Theorem first_vbr_frame_shows_its_bitrate :
  forall (da : dec_audio) (fi : mpg123_frameinfo),
    vbr fi <> MPG123_CBR ->
    mean_count (priv da) = 0 ->
    mean_rate (priv da) = F32.zero ->
    0 <= delay (priv da) <= 1 ->
    0 <= bitrate fi * 1000 < 2 ^ 24 ->
    let da' := update_info da MPG123_OK fi in
    da_bitrate da' = bitrate fi * 1000 /\
    mean_rate (priv da') = F32.of_Z (bitrate fi * 1000) /\
    mean_count (priv da') = 1 /\
    delay (priv da') = 10.
Proof.
  intros da fi Hv Hc Hm Hd Hb. cbv zeta.
  assert (Hr : refresh_due (priv da) = true).
  { unfold refresh_due, delay_decremented. rewrite to_short_id by lia.
    apply Z.ltb_lt. lia. }
  rewrite (update_info_vbr _ _ Hv), Hr, Hc, Hm.
  cbn [da_bitrate set_priv set_bitrate priv mean_rate mean_count delay
       set_delay set_mean].
  change (next_count 0) with 1.
  rewrite to_int_id
    by (unfold C.INT_MIN, C.INT_MAX; change (2 ^ 24) with 16777216 in Hb; lia).
  destruct (first_mean_exact _ Hb) as (E1 & E2).
  rewrite E1, E2. repeat split.
Qed.

Lemma first_vbr_frame_shows_its_bitrate_witness :
  let da := update_all host0 [(MPG123_OK, frame 128 MPG123_VBR);
                              (MPG123_OK, frame 160 MPG123_VBR);
                              (MPG123_OK, frame 320 MPG123_CBR)] in
  let da' := update_info da MPG123_OK (frame 192 MPG123_VBR) in
  da_bitrate da' = 192 * 1000 /\
  mean_rate (priv da') = F32.of_Z (192 * 1000) /\
  mean_count (priv da') = 1 /\
  delay (priv da') = 10.
Proof.
  apply (first_vbr_frame_shows_its_bitrate
           (update_all host0 [(MPG123_OK, frame 128 MPG123_VBR);
                              (MPG123_OK, frame 160 MPG123_VBR);
                              (MPG123_OK, frame 320 MPG123_CBR)])
           (frame 192 MPG123_VBR)).
  - discriminate.
  - vm_compute. reflexivity.
  - vm_compute. reflexivity.
  - vm_compute. split; discriminate.
  - vm_compute. split; [discriminate | reflexivity].
Defined.
